(** * remote_import: a shallow embedding of [remote_importer.py]

    The development follows [src/remote_import/remote_importer.py]:

    - Python [str] values are [string]s; the two regular expressions and the
      [str] methods the module uses are written out as functions on them.
    - [sys.meta_path], [sys.modules], the importer objects and the module
      objects live in a [World]; importer and module objects are addressed
      by their position in a heap, so that "the same object" is statable.
    - Every method is a computation in a state-and-exception monad [M]
      (a raised exception keeps the mutations made so far, as in Python).
    - [fsspec], [compile]/[exec] and [importlib.reload] are interfaces
      ([RemoteFS], [PyRuntime]); every [fsspec] call is recorded in the
      world's [fs_log].
    - [logger] calls have no effect on control flow and are left out. *)

From Stdlib Require Import Ascii String.
From stdpp Require Import base option list strings gmap.

Local Open Scope string_scope.
Local Open Scope list_scope.

(** ** Strings *)

Module Str.

(** [s.startswith(p)] *)
Fixpoint startswith (p s : string) : bool :=
  match p, s with
  | EmptyString, _ => true
  | String a p', String b s' => Ascii.eqb a b && startswith p' s'
  | String _ _, EmptyString => false
  end.

(** [needle in hay] for two [str] operands: the substring test. *)
Fixpoint contains (needle hay : string) : bool :=
  startswith needle hay ||
  match hay with
  | EmptyString => false
  | String _ t => contains needle t
  end.

(** [s.split(sep)] for a one-character separator: never the empty list. *)
Fixpoint split (sep : ascii) (s : string) : list string :=
  match s with
  | EmptyString => [EmptyString]
  | String c t =>
      if Ascii.eqb c sep then EmptyString :: split sep t
      else match split sep t with
           | h :: r => String c h :: r
           | [] => [String c EmptyString]
           end
  end.

(** [sep.join(parts)] *)
Fixpoint join (sep : string) (parts : list string) : string :=
  match parts with
  | [] => EmptyString
  | [p] => p
  | p :: rest => p +:+ sep +:+ join sep rest
  end.

(** [s.replace(a, b)] for one-character [a] and [b]. *)
Fixpoint replace (a b : ascii) (s : string) : string :=
  match s with
  | EmptyString => EmptyString
  | String c t => String (if Ascii.eqb c a then b else c) (replace a b t)
  end.

(** [c * n] *)
Fixpoint times (c : ascii) (n : nat) : string :=
  match n with
  | 0 => EmptyString
  | S k => String c (times c k)
  end.

End Str.

(** ** [sanitize_url]

    [re.sub(r"([^:]/)(/)+", r"\1", url)]: the scan goes left to right; at each
    position the pattern is tried; a match is replaced by its first group
    and the scan resumes behind the match, otherwise one character is copied. *)

(** The greedy [(/)+] tail: everything left after the leading slashes. *)
Fixpoint lstrip_slashes (s : string) : string :=
  match s with
  | String c t => if Ascii.eqb c "/" then lstrip_slashes t else s
  | EmptyString => s
  end.

(** The pattern anchored at the head of [s]: group 1 and the unmatched rest. *)
Definition match_here (s : string) : option (string * string) :=
  match s with
  | String c (String c1 (String c2 t)) =>
      if negb (Ascii.eqb c ":") && Ascii.eqb c1 "/" && Ascii.eqb c2 "/"
      then Some (String c (String c1 EmptyString), lstrip_slashes t)
      else None
  | _ => None
  end.

Fixpoint re_sub (fuel : nat) (s : string) : string :=
  match fuel with
  | 0 => s
  | S n =>
      match match_here s with
      | Some (g1, rest) => g1 +:+ re_sub n rest
      | None =>
          match s with
          | EmptyString => EmptyString
          | String c t => String c (re_sub n t)
          end
      end
  end.

Definition sanitize_url (url : string) : string :=
  re_sub (String.length url) url.

(** The spec's words for [sanitize_url] on an input without a scheme:
    every run of slashes becomes one slash. *)
Fixpoint collapse_slashes (s : string) : string :=
  match s with
  | EmptyString => EmptyString
  | String c t =>
      if Ascii.eqb c "/" && Str.startswith "/" t then collapse_slashes t
      else String c (collapse_slashes t)
  end.

(** The spec's words for [sanitize_url] on any input: a run of slashes is
    cut to one slash, except that a run right behind a colon (a scheme's
    double slash) and a run at the very start of the string may keep two.
    [allowed] is the number of slashes the run at hand may still keep. *)
Fixpoint cut_runs (allowed : nat) (s : string) : string :=
  match s with
  | EmptyString => EmptyString
  | String c t =>
      if Ascii.eqb c "/" then
        match allowed with
        | 0 => cut_runs 0 t
        | S k => String c (cut_runs k t)
        end
      else String c (cut_runs (if Ascii.eqb c ":" then 2 else 1) t)
  end.

Definition collapse_except_scheme (s : string) : string := cut_runs 2 s.

(** Where the scan of [sanitize_url] can stand with [allowed] slashes
    left: with none left no slash follows, with one left at most one
    follows; more than two are never allowed. *)
Definition run_fits (allowed : nat) (s : string) : Prop :=
  match allowed with
  | 0 => Str.startswith "/" s = false
  | 1 => Str.startswith "//" s = false
  | 2 => True
  | _ => False
  end.

(** A scheme's double slash: the text [://] somewhere in the string. *)
Definition has_scheme_slashes (s : string) : bool := Str.contains "://" s.

(** Whether the pattern of [sanitize_url] matches at some position. *)
Definition matches_here (s : string) : bool :=
  match match_here s with Some _ => true | None => false end.

Fixpoint matches_somewhere (s : string) : bool :=
  matches_here s ||
  match s with
  | EmptyString => false
  | String _ t => matches_somewhere t
  end.

(** The first two characters of a string. *)
Definition prefix2 (s : string) : string :=
  match s with
  | String a (String b _) => String a (String b EmptyString)
  | _ => s
  end.

(** ** [validate_variable_string]

    [re.sub(r"\W|^(?=\d)", "_", variable_string)] on characters below code
    point 256.  [\d] are the ten decimal digits; [\w] are the characters
    Python's [str.isalnum] accepts, and the underscore. *)

Definition is_digit (c : ascii) : bool :=
  let n := nat_of_ascii c in Nat.leb 48 n && Nat.leb n 57.

Definition is_word (c : ascii) : bool :=
  let n := nat_of_ascii c in
  Nat.leb 48 n && Nat.leb n 57
  || Nat.leb 65 n && Nat.leb n 90
  || Nat.eqb n 95
  || Nat.leb 97 n && Nat.leb n 122
  || Nat.eqb n 170 || Nat.eqb n 178 || Nat.eqb n 179 || Nat.eqb n 181
  || Nat.eqb n 185 || Nat.eqb n 186
  || Nat.leb 188 n && Nat.leb n 190
  || Nat.leb 192 n && Nat.leb n 214
  || Nat.leb 216 n && Nat.leb n 246
  || Nat.leb 248 n.

(** Behind the first position [^] cannot match: what is left is [\W]. *)
Fixpoint sub_nonword (s : string) : string :=
  match s with
  | EmptyString => EmptyString
  | String c t => String (if is_word c then c else "_"%char) (sub_nonword t)
  end.

(** At the first position [\W] is tried first; failing that, [^(?=\d)]
    matches the empty text in front of a digit, which puts an underscore
    there and copies the digit. *)
Definition validate_variable_string (variable_string : string) : string :=
  match variable_string with
  | EmptyString => EmptyString
  | String c t =>
      if negb (is_word c) then String "_" (sub_nonword t)
      else if is_digit c then String "_" (String c (sub_nonword t))
      else String c (sub_nonword t)
  end.

(** What the result of [validate_variable_string] looks like: word
    characters only, the first of them no digit. *)
Definition word_only (s : string) : bool :=
  forallb is_word (list_ascii_of_string s).

Definition starts_with_digit (s : string) : bool :=
  match s with
  | String c _ => is_digit c
  | EmptyString => false
  end.

(** ** [os.path.normpath] (POSIX flavour), as [url] calls it *)

Definition is_nil {A} (l : list A) : bool :=
  match l with [] => true | _ => false end.

Definition last_is (x : string) (l : list string) : bool :=
  match last l with Some y => String.eqb x y | None => false end.

(** One turn of the loop over the path components. *)
Definition normpath_step (initial_slashes : nat) (new_comps : list string)
    (comp : string) : list string :=
  if String.eqb comp "" || String.eqb comp "." then new_comps
  else if negb (String.eqb comp "..")
          || (Nat.eqb initial_slashes 0 && is_nil new_comps)
          || (negb (is_nil new_comps) && last_is ".." new_comps)
       then new_comps ++ [comp]
       else removelast new_comps.

Definition normpath (path : string) : string :=
  if String.eqb path "" then "."
  else
    let initial_slashes :=
      if Str.startswith "/" path then
        if Str.startswith "//" path && negb (Str.startswith "///" path)
        then 2 else 1
      else 0 in
    let comps := fold_left (normpath_step initial_slashes) (Str.split "/" path) [] in
    let path' := Str.times "/" initial_slashes +:+ Str.join "/" comps in
    if String.eqb path' "" then "." else path'.

(** ** Values, exceptions, outcomes *)

Inductive PyValue :=
  | VNone
  | VStr (s : string)
  | VInt (z : Z)
  | VModule (addr : nat)
  | VBuiltins.

Inductive ExnKind :=
  | ModuleNotFoundError
  | UnboundLocalError
  | AttributeError
  | KeyError
  | ValueError
  | SyntaxError
  | SystemError
  | OtherException (cls : string).

(** An exception, that is an instance of [Exception]: its class and its
    [str()].  [KeyboardInterrupt] and [SystemExit], which [except Exception]
    lets through, are no part of the model. *)
Record Exn := mkExn { exn_kind : ExnKind; exn_str : string }.

Inductive Outcome (A : Type) :=
  | Ret (a : A)
  | Raise (e : Exn).
Arguments Ret {A} a.
Arguments Raise {A} e.

(** ** The world: interpreter state the module reads and writes *)

(** A code object, as [compile] returns it. *)
Record Code := mkCode { co_source : string; co_filename : string }.

(** The attributes of a [RemoteImporter] object.  Inside the class body
    [importer.__headers] and [importer.__base_url] are name-mangled: they
    denote the attributes [_RemoteImporter__headers] and
    [_RemoteImporter__base_url], which [__init__] does not create. *)
Record RemoteImporter := mkImporter {
  namespace : string;
  base_url : string;
  namespace_url : string;
  headers : gmap string string;
  extra_args : list (string * PyValue);
  _RemoteImporter__headers : option (gmap string string);
  _RemoteImporter__base_url : option string;
  _full_url : option string;
  _raw_source_code : option string;
  compiled_source : option Code;
}.

(** [ModuleSpec(name, loader)] *)
Record ModuleSpec := mkSpec { spec_name : string; spec_loader : nat }.

(** An entry of [sys.meta_path]: a [RemoteImporter] object (by address) or a
    finder of another class. *)
Inductive Finder :=
  | RemoteFinder (addr : nat)
  | OtherFinder (cls : string).

(** A call that reaches the remote store. *)
Inductive FsCall :=
  | FsExists (url : string)
  | FsFind (url : string)
  | FsLs (url : string)
  | FsCat (url : string).

Record World := mkWorld {
  meta_path : list Finder;               (* sys.meta_path *)
  sys_modules : list (string * nat);     (* sys.modules, in insertion order *)
  importers : list RemoteImporter;       (* the RemoteImporter objects *)
  modules : list (gmap string PyValue);  (* the module objects: their __dict__ *)
  fs_log : list FsCall;                  (* remote accesses made so far *)
}.

(** ** The monad of the methods *)

Definition M (A : Type) : Type := World -> Outcome A * World.

Definition ret {A} (a : A) : M A := fun w => (Ret a, w).

Definition raise {A} (e : Exn) : M A := fun w => (Raise e, w).

Definition bind {A B} (m : M A) (k : A -> M B) : M B :=
  fun w =>
    match m w with
    | (Ret a, w') => k a w'
    | (Raise e, w') => (Raise e, w')
    end.

(** [try: m  except Exception as e: h e] *)
Definition catch {A} (m : M A) (h : Exn -> M A) : M A :=
  fun w =>
    match m w with
    | (Ret a, w') => (Ret a, w')
    | (Raise e, w') => h e w'
    end.

(** A pure call that may raise. *)
Definition lift {A} (o : Outcome A) : M A := fun w => (o, w).

Definition get : M World := fun w => (Ret w, w).
Definition modify (f : World -> World) : M unit := fun w => (Ret tt, f w).

Declare Scope py_scope.
Delimit Scope py_scope with py.
Notation "x <- c1 ;; c2" := (bind c1 (fun x => c2))
  (at level 100, c1 at next level, right associativity) : py_scope.
Notation "c1 ;;; c2" := (bind c1 (fun _ => c2))
  (at level 100, right associativity) : py_scope.
Local Open Scope py_scope.

(** ** The interfaces the module is written against *)

(** [fsspec]: a filesystem object per URL and keyword arguments, and the four
    calls the module makes on it. *)
Class RemoteFS := {
  FsHandle : Type;
  url_to_fs : string -> list (string * PyValue) -> Outcome FsHandle;
  fs_exists : FsHandle -> string -> Outcome bool;
  fs_find : FsHandle -> string -> Outcome (list string);
  fs_ls : FsHandle -> string -> Outcome (list string);
  fs_cat : FsHandle -> string -> Outcome (list Byte.byte);
}.

(** The interpreter: [bytes.decode], [traceback.format_tb] as an f-string
    renders it, the parser behind [compile], [exec] on a module's [__dict__],
    and [importlib.reload]. *)
Class PyRuntime := {
  bytes_decode : list Byte.byte -> Outcome string;
  format_tb : Exn -> string;
  syntax_error : string -> option Exn;
  py_exec : Code -> nat -> M unit;
  importlib_reload : nat -> M unit;
}.

(** [compile(source=..., filename=..., mode='exec')] *)
Definition py_compile `{PyRuntime} (source filename : string) : Outcome Code :=
  match syntax_error source with
  | Some e => Raise e
  | None => Ret (mkCode source filename)
  end.

(** ** Object stores *)

Definition with_meta_path (v : list Finder) (w : World) : World :=
  mkWorld v (sys_modules w) (importers w) (modules w) (fs_log w).
Definition with_sys_modules (v : list (string * nat)) (w : World) : World :=
  mkWorld (meta_path w) v (importers w) (modules w) (fs_log w).
Definition with_importers (v : list RemoteImporter) (w : World) : World :=
  mkWorld (meta_path w) (sys_modules w) v (modules w) (fs_log w).
Definition with_modules (v : list (gmap string PyValue)) (w : World) : World :=
  mkWorld (meta_path w) (sys_modules w) (importers w) v (fs_log w).
Definition with_fs_log (v : list FsCall) (w : World) : World :=
  mkWorld (meta_path w) (sys_modules w) (importers w) (modules w) v.

(** [d[k]] and [d[k] = v] on an insertion-ordered dict. *)
Fixpoint dict_get {V} (k : string) (d : list (string * V)) : option V :=
  match d with
  | [] => None
  | (k', v) :: r => if String.eqb k k' then Some v else dict_get k r
  end.

Fixpoint dict_set {V} (k : string) (v : V) (d : list (string * V)) : list (string * V) :=
  match d with
  | [] => [(k, v)]
  | (k', v') :: r => if String.eqb k k' then (k, v) :: r else (k', v') :: dict_set k v r
  end.

(** Reading an object through its address.  Python has no dangling
    references; the model raises [SystemError] on one, and the theorems are
    about allocated addresses. *)
Definition get_importer (self : nat) : M RemoteImporter :=
  fun w =>
    match importers w !! self with
    | Some imp => (Ret imp, w)
    | None => (Raise (mkExn SystemError "no importer at this address"), w)
    end.

Definition update_importer (self : nat) (f : RemoteImporter -> RemoteImporter) : M unit :=
  modify (fun w => with_importers (alter f self (importers w)) w).

Definition alloc_importer (imp : RemoteImporter) : M nat :=
  fun w => (Ret (length (importers w)), with_importers (importers w ++ [imp]) w).

(** [types.ModuleType(name)]: a new module object and its initial [__dict__]. *)
Definition module_type (name : string) : gmap string PyValue :=
  <["__name__" := VStr name]>
  (<["__doc__" := VNone]>
  (<["__package__" := VNone]>
  (<["__loader__" := VNone]>
  (<["__spec__" := VNone]> ∅)))).

Definition alloc_module (name : string) : M nat :=
  fun w => (Ret (length (modules w)), with_modules (modules w ++ [module_type name]) w).

(** [module.<attr> = v] *)
Definition module_setattr (m : nat) (attr : string) (v : PyValue) : M unit :=
  modify (fun w => with_modules (alter (insert attr v) m (modules w)) w).

(** A call on a filesystem object: it reaches the remote store. *)
Definition fs_call {A} (call : FsCall) (o : Outcome A) : M A :=
  fun w => (o, with_fs_log (fs_log w ++ [call]) w).

(** Attribute writes on an importer. *)
Definition set_mangled (hdrs : gmap string string) (base : string)
    (imp : RemoteImporter) : RemoteImporter :=
  mkImporter (namespace imp) (base_url imp) (namespace_url imp) (headers imp)
    (extra_args imp) (Some hdrs) (Some base)
    (_full_url imp) (_raw_source_code imp) (compiled_source imp).

Definition set_resolved (u src : string) (imp : RemoteImporter) : RemoteImporter :=
  mkImporter (namespace imp) (base_url imp) (namespace_url imp) (headers imp)
    (extra_args imp) (_RemoteImporter__headers imp) (_RemoteImporter__base_url imp)
    (Some u) (Some src) (compiled_source imp).

Definition set_compiled (c : Code) (imp : RemoteImporter) : RemoteImporter :=
  mkImporter (namespace imp) (base_url imp) (namespace_url imp) (headers imp)
    (extra_args imp) (_RemoteImporter__headers imp) (_RemoteImporter__base_url imp)
    (_full_url imp) (_raw_source_code imp) (Some c).

Definition nl : string := String "010"%char EmptyString.

(** What a function body hands back to its caller from inside a loop:
    a [return], or the loop ran out and the locals are as given. *)
Inductive Flow (R L : Type) :=
  | Return (r : R)
  | Continue (locals : L).
Arguments Return {R L} r.
Arguments Continue {R L} locals.

(** ** class RemoteImporter *)

(** [url]: the method body, on the importer's [base_url]. *)
Definition url_at (base full_name : string) : string :=
  let module_path := Str.replace "." "/" full_name in
  sanitize_url (base +:+ "/" +:+ normpath module_path).

Definition url (self : RemoteImporter) (full_name : string) : string :=
  url_at (base_url self) full_name.

Definition __init__ (ns base : string) (hdrs : gmap string string)
    (extra : list (string * PyValue)) : RemoteImporter :=
  mkImporter ns base (url_at base ns) hdrs extra None None None None None.

Section RemoteImporter.
Context `{RemoteFS} `{PyRuntime}.

(** property [fs] *)
Definition fs (self : RemoteImporter) : M FsHandle :=
  lift (url_to_fs (namespace_url self) (extra_args self)).

(** property [package_files]; of the set only membership is ever asked. *)
Definition package_files (self : nat) : M (list string) :=
  imp <- get_importer self ;;
  let url := namespace_url imp in
  fs <- fs imp ;;
  found <- fs_call (FsFind url) (fs_find fs url) ;;
  listed <- fs_call (FsLs url) (fs_ls fs url) ;;
  ret (found ++ listed).

Definition error_msg (url : string) (e : Exn) : string :=
  ("File request failed. URL: " +:+ url +:+ ". Error: " +:+ exn_str e +:+ ", ")
  +:+ ("stack: " +:+ format_tb e).

Definition _get_raw_source_code (self : nat) (url : string) : M string :=
  catch
    (imp <- get_importer self ;;
     fs <- fs imp ;;
     raw <- fs_call (FsCat url) (fs_cat fs url) ;;
     lift (bytes_decode raw))
    (fun e => raise (mkExn ModuleNotFoundError (error_msg url e))).

(** The tail of [find_spec]: remember the result on the importer. *)
Definition resolved (self : nat) (full_name url raw_source_code : string)
    : M (option ModuleSpec) :=
  update_importer self (set_resolved url raw_source_code) ;;;
  ret (Some (mkSpec full_name self)).

(** [find_spec(self, full_name, path, target)]; [path] and [target] are
    only logged.  [None] tells the import system to ask the next finder. *)
Definition find_spec (self : nat) (full_name : string) : M (option ModuleSpec) :=
  imp <- get_importer self ;;
  match Str.split "." full_name with
  | [] => raise (mkExn ValueError "not enough values to unpack")
  | package_name :: _ =>
      if negb (String.eqb package_name (namespace imp)) then ret None
      else
        let this_module_url := url imp full_name in
        let url_init := sanitize_url (this_module_url +:+ "/__init__.py") in
        let url_py := sanitize_url (this_module_url +:+ ".py") in
        files <- package_files self ;;
        if bool_decide (url_init ∈ files) then
          raw_source_code <- _get_raw_source_code self url_init ;;
          resolved self full_name url_init raw_source_code
        else
          files' <- package_files self ;;
          if bool_decide (url_py ∈ files') then
            raw_source_code <- _get_raw_source_code self url_py ;;
            resolved self full_name url_py raw_source_code
          else
            resolved self full_name this_module_url ""
  end.

Definition create_module (self : nat) (spec : ModuleSpec) : M nat :=
  imp <- get_importer self ;;
  module <- alloc_module (spec_name spec) ;;
  module_setattr module "__package__" (VStr (spec_name spec)) ;;;
  module_setattr module "__path__" (VStr (base_url imp)) ;;;
  module_setattr module "__url__" (VStr (url imp (spec_name spec))) ;;;
  module_setattr module "__file__" (VStr (url imp (spec_name spec))) ;;;
  modify (fun w => with_sys_modules (dict_set (spec_name spec) module (sys_modules w)) w) ;;;
  ret module.

Definition exec_module (self : nat) (module : nat) : M nat :=
  imp <- get_importer self ;;
  match _raw_source_code imp with
  | None => raise (mkExn AttributeError "_raw_source_code")
  | Some src =>
      module_setattr module "__source__" (VStr src) ;;;
      code <- lift (py_compile src (base_url imp)) ;;
      update_importer self (set_compiled code) ;;;
      py_exec code module ;;;
      ret module
  end.

(** The three steps in the order the class docstring gives them:
    [find_spec], then [create_module] on the spec, then [exec_module] on
    the module. *)
Definition load_module (self : nat) (spec : ModuleSpec) : M nat :=
  module <- create_module self spec ;;
  exec_module self module.

Definition import_with (self : nat) (full_name : string) : M (option nat) :=
  found <- find_spec self full_name ;;
  match found with
  | None => ret None
  | Some spec => module <- load_module self spec ;; ret (Some module)
  end.

(** *** [add_remote] *)

(** [[i for i in sys.meta_path if isinstance(i, RemoteImporter)]] *)
Definition remote_importers (w : World) : list nat :=
  omap (fun f => match f with RemoteFinder a => Some a | OtherFinder _ => None end)
       (meta_path w).

(** [[m for m in sys.modules if namespace in m]] *)
Definition reload_targets (ns : string) (w : World) : list string :=
  List.filter (Str.contains ns) (map fst (sys_modules w)).

(** [for module in ...: importlib.reload(sys.modules[module])] *)
Fixpoint reload_all (targets : list string) : M unit :=
  match targets with
  | [] => ret tt
  | module :: rest =>
      w <- get ;;
      match dict_get module (sys_modules w) with
      | None => raise (mkExn KeyError module)
      | Some m => importlib_reload m ;;; reload_all rest
      end
  end.

(** The inner loop over the importers already on [sys.meta_path]; the loop
    variable is the function's local [importer]. *)
Fixpoint for_importers (ns base : string) (reload : bool)
    (hdrs : gmap string string) (candidates : list nat) (importer : option nat)
    : M (Flow nat (option nat)) :=
  match candidates with
  | [] => ret (Continue importer)
  | i :: rest =>
      imp <- get_importer i ;;
      if String.eqb ns (namespace imp) then
        (if reload then
           update_importer i (set_mangled hdrs base) ;;;
           w <- get ;;
           reload_all (reload_targets ns w)
         else ret tt) ;;;
        ret (Return i)
      else for_importers ns base reload hdrs rest (Some i)
  end.

Definition not_found_msg (ns url : string) : string :=
  ("Module '" +:+ ns +:+ "' not found in '" +:+ url +:+ "'." +:+ nl)
  +:+ "Check network and module name".

Definition check_connection (ns base : string) (extra : list (string * PyValue)) : M unit :=
  let url := sanitize_url (base +:+ "/" +:+ ns) in
  fs <- lift (url_to_fs url extra) ;;
  reachable <- fs_call (FsExists url) (fs_exists fs url) ;;
  if reachable : bool then ret tt
  else raise (mkExn ModuleNotFoundError (not_found_msg ns url)).

(** The outer loop over [namespaces]. *)
Fixpoint for_namespaces (namespaces : list string) (base : string) (reload : bool)
    (hdrs : gmap string string) (extra : list (string * PyValue))
    (test_connection : bool) (importer : option nat)
    : M (Flow nat (option nat)) :=
  match namespaces with
  | [] => ret (Continue importer)
  | ns :: rest =>
      (if test_connection then check_connection ns base extra else ret tt) ;;;
      w <- get ;;
      scanned <- for_importers ns base reload hdrs (remote_importers w) importer ;;
      match scanned with
      | Return i => ret (Return i)
      | Continue _ =>
          new <- alloc_importer (__init__ ns base hdrs extra) ;;
          modify (fun w => with_meta_path (RemoteFinder new :: meta_path w) w) ;;;
          for_namespaces rest base reload hdrs extra test_connection (Some new)
      end
  end.

Definition add_remote (namespaces : list string) (base : string) (reload : bool)
    (hdrs : gmap string string) (extra : list (string * PyValue))
    (test_connection : bool) : M nat :=
  looped <- for_namespaces namespaces base reload hdrs extra test_connection None ;;
  match looped with
  | Return i => ret i
  | Continue (Some i) => ret i
  | Continue None =>
      raise (mkExn UnboundLocalError
               "cannot access local variable 'importer' where it is not associated with a value")
  end.

End RemoteImporter.

(** *** The remaining members of the class *)

(** property [package_name] *)
Definition package_name (self : RemoteImporter) : string := namespace self.

(** property [package_hash]:
    [self.headers.get('X-hash') or self.headers.get('x-hash')]; a header
    value is a [str], which [or] passes over when it is empty. *)
Definition package_hash (self : RemoteImporter) : option string :=
  match headers self !! "X-hash" with
  | Some v => if String.eqb v "" then headers self !! "x-hash" else Some v
  | None => headers self !! "x-hash"
  end.

Definition set_mangled_headers (hdrs : gmap string string) (imp : RemoteImporter)
    : RemoteImporter :=
  mkImporter (namespace imp) (base_url imp) (namespace_url imp) (headers imp)
    (extra_args imp) (Some hdrs) (_RemoteImporter__base_url imp)
    (_full_url imp) (_raw_source_code imp) (compiled_source imp).

(** [add_header]: [self.__headers] is the mangled attribute again, read
    before it is written to.  The dict is held by value here: that it can be
    the very object some importer's [headers] is, is not modelled. *)
Definition add_header (self : nat) (key value : string) : M (gmap string string) :=
  imp <- get_importer self ;;
  match _RemoteImporter__headers imp with
  | None =>
      raise (mkExn AttributeError
               "'RemoteImporter' object has no attribute '_RemoteImporter__headers'")
  | Some hdrs =>
      update_importer self (set_mangled_headers (<[key := value]> hdrs)) ;;;
      ret (<[key := value]> hdrs)
  end.

(** ** Notions the statements use *)

(** An importer with other headers. *)
Definition with_headers (hdrs : gmap string string) (imp : RemoteImporter)
    : RemoteImporter :=
  mkImporter (namespace imp) (base_url imp) (namespace_url imp) hdrs
    (extra_args imp) (_RemoteImporter__headers imp) (_RemoteImporter__base_url imp)
    (_full_url imp) (_raw_source_code imp) (compiled_source imp).


(** What a method may not touch: [sys.meta_path], [sys.modules], the module
    objects, and every importer but [self]; [self] keeps the attributes
    [__init__] gave it; the record of remote calls only grows. *)
Definition same_settings (a b : RemoteImporter) : Prop :=
  namespace b = namespace a /\ base_url b = base_url a /\
  namespace_url b = namespace_url a /\ headers b = headers a /\
  extra_args b = extra_args a.

Definition only_resolves (self : nat) (w w' : World) : Prop :=
  meta_path w' = meta_path w /\
  sys_modules w' = sys_modules w /\
  modules w' = modules w /\
  length (importers w') = length (importers w) /\
  (forall j, j <> self -> importers w' !! j = importers w !! j) /\
  (forall imp, importers w !! self = Some imp ->
     exists imp', importers w' !! self = Some imp' /\ same_settings imp imp') /\
  exists calls, fs_log w' = fs_log w ++ calls.

(** The registry is in order: every [RemoteImporter] on [sys.meta_path] is
    an object of the heap, and no two of them have the same namespace. *)
Definition bound_names (w : World) : list string :=
  omap (fun i => namespace <$> importers w !! i) (remote_importers w).

Definition registry_ok (w : World) : Prop :=
  Forall (fun i => is_Some (importers w !! i)) (remote_importers w) /\
  NoDup (bound_names w).

(** What registering may do to the world: put finders in front of
    [sys.meta_path] and new importer objects behind the old ones. *)
Definition only_registers (w w' : World) : Prop :=
  (exists new, meta_path w' = new ++ meta_path w) /\
  (exists more, importers w' = importers w ++ more) /\
  sys_modules w' = sys_modules w /\
  modules w' = modules w /\
  exists calls, fs_log w' = fs_log w ++ calls.


(** The binding of a namespace: the first [RemoteImporter] on
    [sys.meta_path] whose [namespace] is [ns]. *)
Fixpoint first_bound (ns : string) (heap : list RemoteImporter) (candidates : list nat)
    : option nat :=
  match candidates with
  | [] => None
  | i :: rest =>
      match heap !! i with
      | Some imp => if String.eqb ns (namespace imp) then Some i
                    else first_bound ns heap rest
      | None => None
      end
  end.

Definition bound_to (ns : string) (w : World) : option nat :=
  first_bound ns (importers w) (remote_importers w).

(** The world after some more remote calls. *)
Definition logged (calls : list FsCall) (w : World) : World :=
  with_fs_log (fs_log w ++ calls) w.

(** [fs.cat(url).decode()] on an open filesystem. *)
Definition read_outcome `{RemoteFS} `{PyRuntime} (h : FsHandle) (url : string)
    : Outcome string :=
  match fs_cat h url with
  | Ret raw => bytes_decode raw
  | Raise e => Raise e
  end.

(** The world after one new namespace has been registered: the new
    importer object, and its entry at the front of [sys.meta_path]. *)
Definition registered (base : string) (hdrs : gmap string string)
    (extra : list (string * PyValue)) (w : World) (ns : string) : World :=
  mkWorld (RemoteFinder (length (importers w)) :: meta_path w) (sys_modules w)
    (importers w ++ [__init__ ns base hdrs extra]) (modules w) (fs_log w).

(** No importer on [sys.meta_path] has one of these names. *)
Definition all_unbound (names : list string) (w : World) : Prop :=
  Forall (fun i => exists imp, importers w !! i = Some imp /\ namespace imp ∉ names)
         (remote_importers w).

(** The two candidate artifacts of a name, as [find_spec] computes them:
    [url_init] and [url_py]. *)
Definition package_form (imp : RemoteImporter) (full_name : string) : string :=
  sanitize_url (url imp full_name +:+ "/__init__.py").

Definition flat_form (imp : RemoteImporter) (full_name : string) : string :=
  sanitize_url (url imp full_name +:+ ".py").

(** The module object as [create_module] leaves it: what
    [types.ModuleType] made, with the four attributes written. *)
Definition created_module (imp : RemoteImporter) (name : string) : gmap string PyValue :=
  <["__file__" := VStr (url imp name)]>
  (<["__url__" := VStr (url imp name)]>
  (<["__path__" := VStr (base_url imp)]>
  (<["__package__" := VStr name]> (module_type name)))).

(** The two writes [exec_module] makes before it runs the body. *)
Definition with_source (m : nat) (src : string) (w : World) : World :=
  with_modules (alter (insert "__source__" (VStr src)) m (modules w)) w.

Definition with_compiled (self : nat) (code : Code) (w : World) : World :=
  with_importers (alter (set_compiled code) self (importers w)) w.

(** The spec's words for "a module name under a namespace": the namespace
    itself or a dotted name that starts with it. *)
Definition under_namespace (ns name : string) : bool :=
  String.eqb name ns || Str.startswith (ns +:+ ".") name.

(** How a remote read can fail: no filesystem for the URL, a failing
    [cat], or bytes that do not decode. *)
Inductive read_fails `{RemoteFS} `{PyRuntime} (imp : RemoteImporter) (url : string)
    : Exn -> Prop :=
  | fails_open e :
      url_to_fs (namespace_url imp) (extra_args imp) = Raise e ->
      read_fails imp url e
  | fails_cat h e :
      url_to_fs (namespace_url imp) (extra_args imp) = Ret h ->
      fs_cat h url = Raise e ->
      read_fails imp url e
  | fails_decode h raw e :
      url_to_fs (namespace_url imp) (extra_args imp) = Ret h ->
      fs_cat h url = Ret raw ->
      bytes_decode raw = Raise e ->
      read_fails imp url e.

(** [exec] puts [__builtins__] into the globals it is given unless the key
    is there. *)
Definition setdefault (k : string) (v : PyValue) (d : gmap string PyValue)
    : gmap string PyValue :=
  match d !! k with
  | Some _ => d
  | None => <[k := v]> d
  end.

(** What Python does with the empty program: it parses, and running it
    leaves the globals alone apart from [__builtins__]. *)
Definition runs_empty_source `{PyRuntime} : Prop :=
  syntax_error "" = None /\
  forall filename m w,
    py_exec (mkCode "" filename) m w =
    (Ret tt, with_modules (alter (setdefault "__builtins__" VBuiltins) m (modules w)) w).

(** The attributes a module carries before any statement of its body has
    run: those of [types.ModuleType], those [create_module] and
    [exec_module] write, and [__builtins__]. *)
Definition metadata_names : list string :=
  ["__name__"; "__doc__"; "__package__"; "__loader__"; "__spec__";
   "__path__"; "__url__"; "__file__"; "__source__"; "__builtins__"].

(** The module object a namespace-only package ends up as. *)
Definition bare_module (imp : RemoteImporter) (full_name : string) : gmap string PyValue :=
  <["__builtins__" := VBuiltins]>
  (<["__source__" := VStr ""]>
  (<["__file__" := VStr (url imp full_name)]>
  (<["__url__" := VStr (url imp full_name)]>
  (<["__path__" := VStr (base_url imp)]>
  (<["__package__" := VStr full_name]> (module_type full_name)))))).

(** ** A small filesystem and a small interpreter, to run the model on *)

Module Demo.

(** A store given by a table of files; a "directory" is a prefix. *)
Definition under (dir file : string) : bool := Str.startswith (dir +:+ "/") file.

Definition direct_child (dir file : string) : bool :=
  under dir file &&
  negb (Str.contains "/" (String.substring (String.length dir + 1) (String.length file) file)).

Definition table_fs (files : list (string * string)) : RemoteFS := {|
  FsHandle := unit;
  url_to_fs := fun _ _ => Ret tt;
  fs_exists := fun _ u =>
    Ret (existsb (fun f => String.eqb u (fst f) || under u (fst f)) files);
  fs_find := fun _ u => Ret (List.filter (under u) (map fst files));
  fs_ls := fun _ u => Ret (List.filter (direct_child u) (map fst files));
  fs_cat := fun _ u =>
    match dict_get u files with
    | Some text => Ret (list_byte_of_string text)
    | None => Raise (mkExn (OtherException "FileNotFoundError") u)
    end;
|}.

(** One statement per line: [import a.b] binds the cached module [a.b]
    (it does not load), [k=v] binds the text [v], anything else is [pass]. *)
Definition run_line (m : nat) (line : string) : M unit :=
  if Str.startswith "import " line then
    let name := String.substring 7 (String.length line) line in
    w <- get ;;
    match dict_get name (sys_modules w) with
    | Some m' => module_setattr m name (VModule m')
    | None => raise (mkExn ModuleNotFoundError name)
    end
  else
    match Str.split "=" line with
    | [k; v] => module_setattr m k (VStr v)
    | _ => ret tt
    end.

Fixpoint run_lines (m : nat) (lines : list string) : M unit :=
  match lines with
  | [] => ret tt
  | l :: rest => run_line m l ;;; run_lines m rest
  end.

Definition runtime : PyRuntime := {|
  bytes_decode := fun raw => Ret (string_of_list_byte raw);
  format_tb := fun _ => "[]";
  syntax_error := fun _ => None;
  py_exec := fun code m =>
    modify (fun w => with_modules (alter (setdefault "__builtins__" VBuiltins) m (modules w)) w) ;;;
    run_lines m (Str.split "010" (co_source code));
  importlib_reload := fun m => module_setattr m "__reloaded__" (VInt 1);
|}.

Definition files : list (string * string) :=
  [("http://host/lib/pkg/__init__.py", "kind=top");
   ("http://host/lib/pkg/sub/__init__.py", "kind=package");
   ("http://host/lib/pkg/sub.py", "kind=flat");
   ("http://host/lib/pkg/loop.py", "import pkg.loop");
   ("http://host/lib/pkg/dir/leaf.py", "value=42")].

Definition store : RemoteFS := table_fs files.

Definition pkg : RemoteImporter := __init__ "pkg" "http://host/lib/" ∅ [].

(** [pkg] is registered; nothing is imported yet. *)
Definition world : World :=
  mkWorld [RemoteFinder 0; OtherFinder "PathFinder"] [] [pkg] [] [].

(** Two modules are cached already: [pkg] and a stranger whose name
    happens to contain the letters [pkg]. *)
Definition world_cached : World :=
  mkWorld [RemoteFinder 0; OtherFinder "PathFinder"]
    [("pkg", 0); ("subpkgs", 1)] [pkg]
    [module_type "pkg"; module_type "subpkgs"] [].

(** [pkg] after [find_spec] has resolved [pkg.loop], whose body imports
    [pkg.loop] itself. *)
Definition world_resolved : World :=
  mkWorld [RemoteFinder 0; OtherFinder "PathFinder"] []
    [set_resolved "http://host/lib/pkg/loop.py" "import pkg.loop" pkg] [] [].

End Demo.

(** A store that refuses to list, and an interpreter whose parser rejects
    every text with an exclamation mark in it. *)
Module Faulty.

Definition denied (u : string) : Exn := mkExn (OtherException "PermissionError") u.

Definition store : RemoteFS := {|
  FsHandle := unit;
  url_to_fs := fun _ _ => Ret tt;
  fs_exists := fun _ _ => Ret false;
  fs_find := fun _ u => Raise (denied u);
  fs_ls := fun _ u => Raise (denied u);
  fs_cat := fun _ u => Raise (denied u);
|}.

Definition runtime : PyRuntime := {|
  bytes_decode := fun raw => Ret (string_of_list_byte raw);
  format_tb := fun _ => "[]";
  syntax_error := fun src =>
    if Str.contains "!" src then Some (mkExn SyntaxError "invalid syntax") else None;
  py_exec := fun _ _ => ret tt;
  importlib_reload := fun _ => ret tt;
|}.


End Faulty.

(** * Properties *)

(** ** The string functions on small inputs *)

Example sanitize_url_scheme : sanitize_url "http://host//a//b.py" = "http://host/a/b.py".
Proof. reflexivity. Qed.

Example sanitize_url_triple : sanitize_url "s3:///bucket////key" = "s3://bucket/key".
Proof. reflexivity. Qed.

Example sanitize_url_relative : sanitize_url "lib//pkg///sub/" = "lib/pkg/sub/".
Proof. reflexivity. Qed.

Example collapse_except_scheme_runs :
  (collapse_except_scheme "http://host//a//b.py", collapse_except_scheme "file:///etc//x",
   collapse_except_scheme "///a///b", collapse_except_scheme "a:b//c:/d") =
  ("http://host/a/b.py", "file://etc/x", "//a/b", "a:b/c:/d").
Proof. reflexivity. Qed.

Example collapse_slashes_runs : collapse_slashes "//a///b/" = "/a/b/".
Proof. reflexivity. Qed.

Example split_dots : Str.split "." "a.b." = ["a"; "b"; ""].
Proof. reflexivity. Qed.

Example split_no_dot : Str.split "." "" = [""].
Proof. reflexivity. Qed.

Example contains_inside : Str.contains "pkg" "subpkgs" = true.
Proof. reflexivity. Qed.

Example normpath_dots : normpath "a//b/../c/./d" = "a/c/d".
Proof. reflexivity. Qed.

Example normpath_slashes : (normpath "//a", normpath "///a", normpath "") = ("//a", "/a", ".").
Proof. reflexivity. Qed.

Example url_at_joins : url_at "http://host/lib/" "pkg.sub.leaf" = "http://host/lib/pkg/sub/leaf".
Proof. reflexivity. Qed.

(** ** [sanitize_url] *)

Section Sanitize.

Local Abbreviation slash := "/"%char.
Local Arguments Ascii.eqb : simpl never.

Lemma append_cons c s t : String c s +:+ t = String c (s +:+ t).
Proof. reflexivity. Qed.

Lemma append_empty t : "" +:+ t = t.
Proof. reflexivity. Qed.

Lemma collapse_slashes_cons c t :
  collapse_slashes (String c t) =
  if Ascii.eqb c slash && Str.startswith "/" t then collapse_slashes t
  else String c (collapse_slashes t).
Proof. reflexivity. Qed.

Lemma re_sub_step n s :
  re_sub (S n) s =
  match match_here s with
  | Some (g1, rest) => g1 +:+ re_sub n rest
  | None =>
      match s with
      | EmptyString => EmptyString
      | String c t => String c (re_sub n t)
      end
  end.
Proof. reflexivity. Qed.

Lemma re_sub_empty n : re_sub n "" = "".
Proof. destruct n; reflexivity. Qed.

Lemma lstrip_slashes_length s : String.length (lstrip_slashes s) <= String.length s.
Proof.
  induction s as [|c t IH]; cbn [lstrip_slashes String.length]; [lia|].
  destruct (Ascii.eqb c slash); cbn [String.length]; lia.
Qed.

Lemma lstrip_slashes_head s : Str.startswith "/" (lstrip_slashes s) = false.
Proof.
  induction s as [|c t IH]; cbn [lstrip_slashes]; [reflexivity|].
  destruct (Ascii.eqb c slash) eqn:E; [exact IH|].
  cbn [Str.startswith]. rewrite Ascii.eqb_sym, E. reflexivity.
Qed.

Lemma startswith_weaken s : Str.startswith "/" s = false -> Str.startswith "//" s = false.
Proof.
  destruct s as [|c t]; cbn [Str.startswith]; [reflexivity|].
  destruct (Ascii.eqb slash c); cbn [andb]; [|reflexivity].
  destruct t; discriminate.
Qed.

Lemma no_scheme_tail c t :
  has_scheme_slashes (String c t) = false -> has_scheme_slashes t = false.
Proof.
  unfold has_scheme_slashes. cbn [Str.contains].
  intros E. apply orb_false_elim in E. apply E.
Qed.

Lemma no_scheme_lstrip s :
  has_scheme_slashes s = false -> has_scheme_slashes (lstrip_slashes s) = false.
Proof.
  induction s as [|c t IH]; intros E; cbn [lstrip_slashes]; [exact E|].
  destruct (Ascii.eqb c slash); [|exact E].
  apply IH. eapply no_scheme_tail, E.
Qed.

(** A slash in front of anything: the run it starts comes out as one slash. *)
Lemma collapse_slashes_run t :
  collapse_slashes (String slash t) = String slash (collapse_slashes (lstrip_slashes t)).
Proof.
  induction t as [|c t IH]; [reflexivity|].
  cbn [lstrip_slashes].
  destruct (Ascii.eqb c slash) eqn:E.
  - apply Ascii.eqb_eq in E. subst c. rewrite <- IH. reflexivity.
  - cbn [collapse_slashes Str.startswith].
    rewrite Ascii.eqb_refl, (Ascii.eqb_sym slash c), E. reflexivity.
Qed.

Lemma re_sub_collapses n : forall s,
  String.length s <= n ->
  has_scheme_slashes s = false ->
  Str.startswith "//" s = false ->
  re_sub n s = collapse_slashes s.
Proof.
  induction n as [|n IH]; intros s Hlen Hno Hhead.
  - destruct s; [reflexivity | simpl in Hlen; lia].
  - destruct s as [|c t]; [reflexivity|].
    assert (Hstep : re_sub n t = collapse_slashes t ->
                    Ascii.eqb c slash && Str.startswith "/" t = false ->
                    String c (re_sub n t) = collapse_slashes (String c t)).
    { intros E1 E2. cbn [collapse_slashes]. rewrite E2, E1. reflexivity. }
    assert (Hc : Ascii.eqb c slash && Str.startswith "/" t = false).
    { destruct t as [|c1 t1]; [apply andb_false_r|].
      cbn in Hhead |- *. rewrite (Ascii.eqb_sym c slash).
      destruct (Ascii.eqb slash c), (Ascii.eqb slash c1); try reflexivity.
      destruct t1; discriminate. }
    destruct t as [|c1 [|c2 t2]].
    + cbn [re_sub match_here]. apply Hstep; [apply re_sub_empty | exact Hc].
    + cbn [re_sub match_here]. apply Hstep; [|exact Hc].
      apply IH; [simpl in *; lia | eapply no_scheme_tail, Hno |].
      simpl. destruct (Ascii.eqb slash c1); reflexivity.
    + cbn [re_sub match_here].
      destruct (negb (Ascii.eqb c ":") && Ascii.eqb c1 slash && Ascii.eqb c2 slash) eqn:Em.
      * apply andb_prop in Em as [Em E2]. apply andb_prop in Em as [E0 E1].
        apply Ascii.eqb_eq in E1, E2. subst c1 c2.
        cbn [Str.startswith Ascii.eqb Bool.eqb andb] in Hc.
        rewrite andb_true_r in Hc.
        rewrite !append_cons, append_empty.
        rewrite IH.
        -- rewrite (collapse_slashes_cons c), Hc. cbn [andb].
           rewrite !collapse_slashes_run.
           cbn [lstrip_slashes]. rewrite Ascii.eqb_refl. reflexivity.
        -- pose proof (lstrip_slashes_length t2). simpl in Hlen. lia.
        -- apply no_scheme_lstrip. do 3 eapply no_scheme_tail. exact Hno.
        -- apply startswith_weaken, lstrip_slashes_head.
      * apply Hstep; [|exact Hc].
        apply IH; [simpl in *; lia | eapply no_scheme_tail, Hno |].
        cbn [Str.startswith]. rewrite andb_true_r.
        destruct (Ascii.eqb slash c1) eqn:E1; [|reflexivity].
        destruct (Ascii.eqb slash c2) eqn:E2; [|reflexivity].
        rewrite (Ascii.eqb_sym c1), (Ascii.eqb_sym c2), E1, E2, !andb_true_r in Em.
        apply negb_false_iff, Ascii.eqb_eq in Em.
        apply Ascii.eqb_eq in E1, E2. subst c c1 c2.
        unfold has_scheme_slashes in Hno. discriminate Hno.
Qed.

(** A match consumes at least its three leading characters. *)
Lemma match_here_rest s g rest :
  match_here s = Some (g, rest) -> 3 + String.length rest <= String.length s.
Proof.
  destruct s as [|c [|c1 [|c2 t]]]; try discriminate. cbn [match_here].
  destruct (negb (Ascii.eqb c ":") && Ascii.eqb c1 slash && Ascii.eqb c2 slash);
    [|discriminate].
  intros [= _ <-]. pose proof (lstrip_slashes_length t). cbn [String.length]. lia.
Qed.

(** The scan never runs out of fuel: any amount from the length of the
    input on gives the same result. *)
Lemma re_sub_fuel n : forall m s,
  String.length s <= n -> String.length s <= m -> re_sub n s = re_sub m s.
Proof.
  induction n as [|n IH]; intros m s Hn Hm.
  - destruct s; [|cbn [String.length] in Hn; lia]. rewrite !re_sub_empty. reflexivity.
  - destruct m as [|m].
    + destruct s; [|cbn [String.length] in Hm; lia]. reflexivity.
    + cbn [re_sub]. destruct (match_here s) as [[g rest]|] eqn:Em.
      * apply match_here_rest in Em. f_equal. apply IH; lia.
      * destruct s as [|c t]; [reflexivity|].
        cbn [String.length] in Hn, Hm. f_equal. apply IH; lia.
Qed.

Lemma re_sub_enough_fuel n s : String.length s <= n -> re_sub n s = sanitize_url s.
Proof. intros Hn. unfold sanitize_url. apply re_sub_fuel; [exact Hn | lia]. Qed.

(** A run at the very start of an input without a scheme comes out as two
    slashes: the pattern has no character in front of it to anchor on. *)
Lemma sanitize_url_leading_run s :
  has_scheme_slashes s = false ->
  Str.startswith "//" s = true ->
  sanitize_url s = String slash (collapse_slashes s).
Proof.
  intros Hno Hhead.
  destruct s as [|c [|c1 t]]; try discriminate.
  { cbn [Str.startswith] in Hhead. rewrite andb_false_r in Hhead. discriminate. }
  cbn [Str.startswith] in Hhead. rewrite andb_true_r in Hhead.
  apply andb_prop in Hhead as [E0 E1]. apply Ascii.eqb_eq in E0, E1. subst c c1.
  rewrite (collapse_slashes_cons slash (String slash t)).
  cbn [Str.startswith]. rewrite !Ascii.eqb_refl. cbn [andb].
  unfold sanitize_url.
  change (String.length (String slash (String slash t))) with (S (S (String.length t))).
  rewrite re_sub_step.
  destruct t as [|c2 t2].
  - reflexivity.
  - cbn [match_here]. change (Ascii.eqb slash ":") with false.
    rewrite Ascii.eqb_refl. cbn [negb andb].
    destruct (Ascii.eqb c2 slash) eqn:E2.
    + apply Ascii.eqb_eq in E2. subst c2.
      rewrite !append_cons, append_empty.
      rewrite re_sub_collapses.
      * rewrite !collapse_slashes_run. cbn [lstrip_slashes].
        rewrite Ascii.eqb_refl. reflexivity.
      * pose proof (lstrip_slashes_length t2). cbn [String.length]. lia.
      * apply no_scheme_lstrip. do 3 eapply no_scheme_tail. exact Hno.
      * apply startswith_weaken, lstrip_slashes_head.
    + f_equal. apply re_sub_collapses.
      * cbn [String.length]. lia.
      * eapply no_scheme_tail, Hno.
      * cbn [Str.startswith]. rewrite Ascii.eqb_refl, (Ascii.eqb_sym slash c2), E2.
        reflexivity.
Qed.

Lemma cut_runs_lstrip t : cut_runs 0 t = cut_runs 0 (lstrip_slashes t).
Proof.
  induction t as [|c t IH]; [reflexivity|].
  cbn [lstrip_slashes]. destruct (Ascii.eqb c slash) eqn:E; [|reflexivity].
  cbn [cut_runs]. rewrite E. exact IH.
Qed.

Lemma startswith2_cons c t :
  Str.startswith "//" (String c t) = Ascii.eqb c slash && Str.startswith "/" t.
Proof. cbn [Str.startswith]. rewrite (Ascii.eqb_sym slash c). reflexivity. Qed.

Lemma startswith1_cons c t : Str.startswith "/" (String c t) = Ascii.eqb c slash.
Proof. cbn [Str.startswith]. rewrite (Ascii.eqb_sym slash c). apply andb_true_r. Qed.

(** The scan and the run-cutting agree wherever the scan can stand. *)
Lemma re_sub_cut_runs n : forall s a,
  String.length s <= n -> run_fits a s -> re_sub n s = cut_runs a s.
Proof.
  induction n as [|n IH]; intros s a Hlen Hfit.
  - destruct s; [reflexivity | cbn [String.length] in Hlen; lia].
  - rewrite re_sub_step.
    destruct (match_here s) as [[g1 rest]|] eqn:Em.
    + pose proof (match_here_rest _ _ _ Em) as Hrest.
      destruct s as [|c [|c1 [|c2 t]]]; try discriminate.
      cbn [match_here] in Em.
      destruct (negb (Ascii.eqb c ":") && Ascii.eqb c1 slash && Ascii.eqb c2 slash) eqn:Ec;
        [|discriminate].
      injection Em as <- <-.
      apply andb_prop in Ec as [Ec E2]. apply andb_prop in Ec as [E0 E1].
      apply Ascii.eqb_eq in E1, E2. subst c1 c2. apply negb_true_iff in E0.
      rewrite !append_cons, append_empty.
      rewrite (IH (lstrip_slashes t) 0);
        [| cbn [String.length] in Hlen, Hrest; lia | apply lstrip_slashes_head].
      rewrite <- cut_runs_lstrip.
      destruct (Ascii.eqb c slash) eqn:Ecs.
      * apply Ascii.eqb_eq in Ecs. subst c.
        destruct a as [|[|[|a]]]; [| | |contradiction].
        -- cbn [run_fits] in Hfit. rewrite startswith1_cons, Ascii.eqb_refl in Hfit.
           discriminate.
        -- cbn [run_fits] in Hfit.
           rewrite startswith2_cons, startswith1_cons, !Ascii.eqb_refl in Hfit.
           discriminate.
        -- cbn [cut_runs]. rewrite !Ascii.eqb_refl. reflexivity.
      * cbn [cut_runs]. rewrite Ecs, E0, !Ascii.eqb_refl. reflexivity.
    + destruct s as [|c t]; [reflexivity|].
      cbn [String.length] in Hlen.
      assert (Hnext : Ascii.eqb c ":" = false -> Str.startswith "//" t = false).
      { intros E0. destruct t as [|c1 [|c2 t2]]; try reflexivity.
        - rewrite startswith2_cons. apply andb_false_r.
        - cbn [match_here] in Em. rewrite E0 in Em. cbn [negb andb] in Em.
          rewrite startswith2_cons, startswith1_cons.
          destruct (Ascii.eqb c1 slash && Ascii.eqb c2 slash); [discriminate | reflexivity]. }
      cbn [cut_runs]. destruct (Ascii.eqb c slash) eqn:Ecs.
      * apply Ascii.eqb_eq in Ecs. subst c.
        destruct a as [|[|[|a]]]; [| | |contradiction].
        -- cbn [run_fits] in Hfit. rewrite startswith1_cons, Ascii.eqb_refl in Hfit.
           discriminate.
        -- cbn [run_fits] in Hfit.
           rewrite startswith2_cons, Ascii.eqb_refl in Hfit. cbn [andb] in Hfit.
           f_equal. apply IH; [lia | exact Hfit].
        -- f_equal. apply IH; [lia | apply Hnext; reflexivity].
      * f_equal. destruct (Ascii.eqb c ":") eqn:E0.
        -- apply IH; [lia | exact I].
        -- apply (IH t 1); [lia | apply Hnext; reflexivity].
Qed.

(** C5 (amended): [sanitize_url] cuts every run of slashes to a single
    slash, except that a run right behind a colon (a scheme's double slash)
    and a run at the very start of the string are cut to two:
    on every input it is [collapse_except_scheme].  In particular it maps
    [http://host//a//b.py] to [http://host/a/b.py]; and on every input that
    contains no [://] and does not itself begin with [//], the result is
    the input with every run of slashes collapsed to a single slash. *)
Theorem sanitize_url_collapses (s : string) :
  sanitize_url s = collapse_except_scheme s /\
  sanitize_url "http://host//a//b.py" = "http://host/a/b.py" /\
  (has_scheme_slashes s = false ->
   Str.startswith "//" s = false ->
   sanitize_url s = collapse_slashes s).
Proof.
  split; [apply re_sub_cut_runs; [lia | exact I]|].
  split; [reflexivity|].
  intros Hno Hhead. apply re_sub_collapses; [lia | exact Hno | exact Hhead].
Qed.

Lemma sanitize_url_collapses_witness :
  has_scheme_slashes "lib//pkg///sub/" = false /\
  Str.startswith "//" "lib//pkg///sub/" = false /\
  sanitize_url "lib//pkg///sub/" = collapse_except_scheme "lib//pkg///sub/" /\
  sanitize_url "http://host//a//b.py" = "http://host/a/b.py" /\
  sanitize_url "lib//pkg///sub/" = collapse_slashes "lib//pkg///sub/".
Proof.
  split; [reflexivity|]. split; [reflexivity|].
  destruct (sanitize_url_collapses "lib//pkg///sub/") as (Hall & Hex & Hplain).
  split; [exact Hall|]. split; [exact Hex|].
  apply Hplain; reflexivity.
Defined.

(** C5 as stated fails: [//a] has no scheme, yet its leading run of two
    slashes is kept, where collapsing would leave one. *)
Lemma sanitize_url_keeps_leading_run :
  has_scheme_slashes "//a" = false /\
  sanitize_url "//a" = "//a" /\
  collapse_slashes "//a" = "/a".
Proof. repeat split; reflexivity. Qed.

End Sanitize.

(** ** Running the monad *)

Lemma bind_run {A B} (m : M A) (k : A -> M B) w :
  bind m k w = match m w with
               | (Ret a, w') => k a w'
               | (Raise e, w') => (Raise e, w')
               end.
Proof. reflexivity. Qed.

Lemma bind_ret {A B} (m : M A) (k : A -> M B) w a w' :
  m w = (Ret a, w') -> bind m k w = k a w'.
Proof. intros E. rewrite bind_run, E. reflexivity. Qed.

Lemma bind_raise {A B} (m : M A) (k : A -> M B) w e w' :
  m w = (Raise e, w') -> bind m k w = (Raise e, w').
Proof. intros E. rewrite bind_run, E. reflexivity. Qed.

Lemma get_importer_ok self imp w :
  importers w !! self = Some imp -> get_importer self w = (Ret imp, w).
Proof. intros E. unfold get_importer. rewrite E. reflexivity. Qed.

(** The first step of every method: read [self]. *)
Ltac read_importer H :=
  rewrite (bind_ret _ _ _ _ _ (get_importer_ok _ _ _ H)).

Lemma logged_logged c1 c2 w : logged c2 (logged c1 w) = logged (c1 ++ c2) w.
Proof. unfold logged, with_fs_log. cbn. rewrite <- app_assoc. reflexivity. Qed.

Lemma logged_importers calls w : importers (logged calls w) = importers w.
Proof. reflexivity. Qed.

Lemma fs_call_run {A} call (o : Outcome A) w : fs_call call o w = (o, logged [call] w).
Proof. reflexivity. Qed.

(** ** The resolver: [find_spec] and the source fetch *)

Section Resolver.
Context `{RemoteFS} `{PyRuntime}.

Lemma contains_here x b : Str.startswith x (x +:+ b) = true.
Proof.
  induction x as [|c x IH]; [reflexivity|].
  change (String c x +:+ b) with (String c (x +:+ b)).
  cbn [Str.startswith]. rewrite Ascii.eqb_refl. exact IH.
Qed.

Lemma contains_middle x a b : Str.contains x (a +:+ x +:+ b) = true.
Proof.
  induction a as [|c a IH].
  - change ("" +:+ x +:+ b) with (x +:+ b).
    destruct (x +:+ b) eqn:E; cbn [Str.contains]; rewrite <- E, contains_here; reflexivity.
  - change (String c a +:+ x +:+ b) with (String c (a +:+ x +:+ b)).
    cbn [Str.contains]. rewrite IH. apply orb_true_r.
Qed.

Lemma append_assoc (a b c : string) : (a +:+ b) +:+ c = a +:+ (b +:+ c).
Proof.
  induction a as [|x a IH]; [reflexivity|].
  change ((String x a +:+ b) +:+ c) with (String x ((a +:+ b) +:+ c)).
  rewrite IH. reflexivity.
Qed.

(** The message of the re-raised error names the URL and the cause. *)
Lemma error_msg_carries url e :
  Str.contains url (error_msg url e) = true /\
  Str.contains (exn_str e) (error_msg url e) = true.
Proof.
  unfold error_msg. split.
  - rewrite !append_assoc. apply contains_middle.
  - rewrite !append_assoc.
    rewrite <- (append_assoc "File request failed. URL: " url).
    rewrite <- (append_assoc _ ". Error: ").
    apply contains_middle.
Qed.

Lemma package_files_ok self imp w h found listed :
  importers w !! self = Some imp ->
  url_to_fs (namespace_url imp) (extra_args imp) = Ret h ->
  fs_find h (namespace_url imp) = Ret found ->
  fs_ls h (namespace_url imp) = Ret listed ->
  package_files self w =
  (Ret (found ++ listed),
   logged [FsFind (namespace_url imp); FsLs (namespace_url imp)] w).
Proof.
  intros Himp Hfs Hfind Hls. unfold package_files.
  read_importer Himp.
  unfold fs, lift. rewrite bind_run, Hfs.
  rewrite bind_run, fs_call_run, Hfind.
  rewrite bind_run, fs_call_run, Hls.
  unfold ret. rewrite logged_logged. reflexivity.
Qed.

(** The fetch on an open filesystem: one [cat], and the outcome of the read
    with any failure turned into [ModuleNotFoundError]. *)
Lemma get_raw_source_code_run self imp url w h :
  importers w !! self = Some imp ->
  url_to_fs (namespace_url imp) (extra_args imp) = Ret h ->
  _get_raw_source_code self url w =
  (match read_outcome h url with
   | Ret src => Ret src
   | Raise e => Raise (mkExn ModuleNotFoundError (error_msg url e))
   end, logged [FsCat url] w).
Proof.
  intros Himp Hfs. unfold _get_raw_source_code, catch.
  read_importer Himp.
  unfold fs, lift. rewrite bind_run, Hfs.
  rewrite bind_run, fs_call_run. unfold read_outcome.
  destruct (fs_cat h url) as [raw|e]; [|reflexivity].
  destruct (bytes_decode raw); reflexivity.
Qed.

(** C4: whatever makes the remote read fail (no filesystem for the URL, a
    failing [cat], undecodable bytes), [_get_raw_source_code] raises, and
    what it raises is a [ModuleNotFoundError] whose message carries the URL
    and the text of the cause; apart from the record of the attempted
    call, the world is as before. *)
Theorem get_raw_source_code_reraises self imp url w e :
  importers w !! self = Some imp ->
  read_fails imp url e ->
  exists calls,
    _get_raw_source_code self url w =
      (Raise (mkExn ModuleNotFoundError (error_msg url e)), logged calls w) /\
    Str.contains url (error_msg url e) = true /\
    Str.contains (exn_str e) (error_msg url e) = true.
Proof.
  intros Himp Hfail.
  destruct Hfail as [e Hopen | h e Hopen Hcat | h raw e Hopen Hcat Hdec].
  - exists []. split; [|apply error_msg_carries].
    unfold _get_raw_source_code, catch.
    read_importer Himp.
    unfold fs, lift. rewrite bind_run, Hopen. unfold raise, logged.
    rewrite app_nil_r. destruct w; reflexivity.
  - exists [FsCat url]. split; [|apply error_msg_carries].
    rewrite (get_raw_source_code_run _ _ _ _ _ Himp Hopen).
    unfold read_outcome. rewrite Hcat. reflexivity.
  - exists [FsCat url]. split; [|apply error_msg_carries].
    rewrite (get_raw_source_code_run _ _ _ _ _ Himp Hopen).
    unfold read_outcome. rewrite Hcat, Hdec. reflexivity.
Qed.

(** C6: when the leading segment of the dotted name is not the importer's
    namespace, [find_spec] returns [None]; it raises nothing, reads nothing
    from the remote store and leaves the world as it was. *)
Theorem find_spec_defers self imp full_name w :
  importers w !! self = Some imp ->
  head (Str.split "." full_name) <> Some (namespace imp) ->
  find_spec self full_name w = (Ret None, w).
Proof.
  intros Himp Hhead. unfold find_spec.
  read_importer Himp.
  destruct (Str.split "." full_name) as [|package_name rest] eqn:Esplit.
  - destruct full_name as [|c t]; [discriminate|].
    cbn [Str.split] in Esplit.
    destruct (Ascii.eqb c "."); [discriminate|].
    destruct (Str.split "." t); discriminate.
  - destruct (String.eqb_spec package_name (namespace imp)) as [->|Hne].
    + exfalso. apply Hhead. reflexivity.
    + reflexivity.
Qed.

End Resolver.

(** ** The loader: [create_module] and [exec_module] *)

Section Loader.
Context `{RemoteFS} `{PyRuntime}.

Lemma dict_get_set {V} k (v : V) d : dict_get k (dict_set k v d) = Some v.
Proof.
  induction d as [|[k' v'] d IH]; cbn [dict_set dict_get].
  - rewrite String.eqb_refl. reflexivity.
  - destruct (String.eqb k k') eqn:E; cbn [dict_get].
    + rewrite String.eqb_refl. reflexivity.
    + rewrite E. exact IH.
Qed.

Lemma alter_last {A} (f : A -> A) (l : list A) (x : A) :
  alter f (length l) (l ++ [x]) = l ++ [f x].
Proof. induction l as [|y l IH]; [reflexivity|]. cbn. f_equal. exact IH. Qed.

Lemma lookup_alter_importer (f : RemoteImporter -> RemoteImporter) self imp
    (heap : list RemoteImporter) :
  heap !! self = Some imp -> alter f self heap !! self = Some (f imp).
Proof. intros E. rewrite list_lookup_alter_eq, E. reflexivity. Qed.

(** [create_module], run: a new module object with its four attributes,
    stored in [sys.modules] under the spec's name. *)
Lemma create_module_run self imp spec w :
  importers w !! self = Some imp ->
  create_module self spec w =
  (Ret (length (modules w)),
   mkWorld (meta_path w)
     (dict_set (spec_name spec) (length (modules w)) (sys_modules w))
     (importers w)
     (modules w ++
      [<["__file__" := VStr (url imp (spec_name spec))]>
       (<["__url__" := VStr (url imp (spec_name spec))]>
       (<["__path__" := VStr (base_url imp)]>
       (<["__package__" := VStr (spec_name spec)]> (module_type (spec_name spec)))))])
     (fs_log w)).
Proof.
  intros Himp. unfold create_module.
  read_importer Himp.
  unfold bind, alloc_module, module_setattr, modify, ret, with_modules, with_sys_modules.
  cbn. rewrite !alter_last. reflexivity.
Qed.

Lemma exec_module_run self imp src m w :
  importers w !! self = Some imp ->
  _raw_source_code imp = Some src ->
  exec_module self m w =
  match py_compile src (base_url imp) with
  | Raise e => (Raise e, with_source m src w)
  | Ret code =>
      bind (py_exec code m) (fun _ => ret m)
        (with_compiled self code (with_source m src w))
  end.
Proof.
  intros Himp Hsrc. unfold exec_module.
  read_importer Himp. rewrite Hsrc.
  unfold bind at 1. unfold module_setattr, modify. fold (with_source m src w).
  unfold bind at 1. unfold lift.
  destruct (py_compile src (base_url imp)) as [code|e]; reflexivity.
Qed.

(** C2: [create_module] makes a new module object (one more object on the
    heap, at an address that held nothing, carrying the attributes
    [create_module] writes) and puts it into [sys.modules] under the spec's
    name; [exec_module] compiles and runs the body only afterwards: in the
    world in which the source is compiled, and in the world handed to
    [exec], looking the name up in [sys.modules] finds that very object,
    alive and with its [__source__] set, so the body itself sees it
    there. *)
Theorem create_module_caches_before_exec self imp spec src w :
  importers w !! self = Some imp ->
  _raw_source_code imp = Some src ->
  let m := length (modules w) in
  exists w1,
    create_module self spec w = (Ret m, w1) /\
    modules w !! m = None /\
    modules w1 = modules w ++ [created_module imp (spec_name spec)] /\
    modules w1 !! m = Some (created_module imp (spec_name spec)) /\
    sys_modules w1 = dict_set (spec_name spec) m (sys_modules w) /\
    dict_get (spec_name spec) (sys_modules w1) = Some m /\
    importers w1 = importers w /\
    load_module self spec w =
      match py_compile src (base_url imp) with
      | Raise e => (Raise e, with_source m src w1)
      | Ret code =>
          bind (py_exec code m) (fun _ => ret m)
            (with_compiled self code (with_source m src w1))
      end /\
    forall code,
      dict_get (spec_name spec)
        (sys_modules (with_compiled self code (with_source m src w1))) = Some m /\
      modules (with_compiled self code (with_source m src w1)) !! m =
        Some (<["__source__" := VStr src]> (created_module imp (spec_name spec))).
Proof.
  intros Himp Hsrc m.
  pose proof (create_module_run self imp spec w Himp) as Hcreate.
  eexists. split; [exact Hcreate|].
  split; [apply lookup_ge_None_2; reflexivity|].
  split; [reflexivity|].
  split; [apply list_lookup_middle; reflexivity|].
  split; [reflexivity|].
  split; [apply dict_get_set|].
  split; [reflexivity|].
  split.
  - unfold load_module. rewrite (bind_ret _ _ _ _ _ Hcreate).
    apply exec_module_run; [exact Himp | exact Hsrc].
  - intros code. split; [apply dict_get_set|].
    unfold with_compiled, with_source, with_importers, with_modules, m.
    cbn [modules]. rewrite alter_last.
    apply list_lookup_middle. reflexivity.
Qed.

End Loader.

(** ** Which artifact backs a name *)

Section Precedence.
Context `{RemoteFS} `{PyRuntime}.

Lemma resolved_run self full_name u src w :
  resolved self full_name u src w =
  (Ret (Some (mkSpec full_name self)),
   with_importers (alter (set_resolved u src) self (importers w)) w).
Proof. reflexivity. Qed.

Lemma claimed_split full_name ns :
  head (Str.split "." full_name) = Some ns ->
  exists rest, Str.split "." full_name = ns :: rest.
Proof.
  destruct (Str.split "." full_name) as [|x rest]; [discriminate|].
  intros [= ->]. exists rest. reflexivity.
Qed.

(** C1: for a name the importer claims, as soon as the package-form
    candidate [<path>/__init__.py] is in the file listing, [find_spec]
    selects it and fetches its source, whether or not the flat-module
    candidate [<path>.py] is listed as well: the listing is read once, the
    one [cat] goes to the package-form URL, and the result is that fetch
    (its text remembered under the package-form URL, or its failure as
    [ModuleNotFoundError]). *)
Theorem find_spec_prefers_package self imp full_name w h found listed :
  importers w !! self = Some imp ->
  head (Str.split "." full_name) = Some (namespace imp) ->
  url_to_fs (namespace_url imp) (extra_args imp) = Ret h ->
  fs_find h (namespace_url imp) = Ret found ->
  fs_ls h (namespace_url imp) = Ret listed ->
  package_form imp full_name ∈ found ++ listed ->
  let url_init := package_form imp full_name in
  let w1 := logged [FsFind (namespace_url imp); FsLs (namespace_url imp); FsCat url_init] w in
  find_spec self full_name w =
  match read_outcome h url_init with
  | Ret src =>
      (Ret (Some (mkSpec full_name self)),
       with_importers (alter (set_resolved url_init src) self (importers w)) w1)
  | Raise e => (Raise (mkExn ModuleNotFoundError (error_msg url_init e)), w1)
  end.
Proof.
  intros Himp Hhead Hfs Hfind Hls Hinit url_init w1.
  destruct (claimed_split _ _ Hhead) as [rest Hsplit].
  unfold find_spec.
  read_importer Himp. rewrite Hsplit.
  rewrite String.eqb_refl. cbn [negb].
  rewrite (bind_ret _ _ _ _ _ (package_files_ok _ _ _ _ _ _ Himp Hfs Hfind Hls)).
  fold (package_form imp full_name). fold url_init.
  rewrite (bool_decide_eq_true_2 _ Hinit).
  rewrite bind_run.
  rewrite (get_raw_source_code_run self imp url_init _ h); [|exact Himp|exact Hfs].
  rewrite logged_logged. cbn [app]. fold w1.
  destruct (read_outcome h url_init) as [src|e]; [|reflexivity].
  rewrite resolved_run. reflexivity.
Qed.


(** With neither form listed nothing is fetched: the bare path and the
    empty text are remembered. *)
Lemma find_spec_namespace_only self imp full_name w h found listed :
  importers w !! self = Some imp ->
  head (Str.split "." full_name) = Some (namespace imp) ->
  url_to_fs (namespace_url imp) (extra_args imp) = Ret h ->
  fs_find h (namespace_url imp) = Ret found ->
  fs_ls h (namespace_url imp) = Ret listed ->
  package_form imp full_name ∉ found ++ listed ->
  flat_form imp full_name ∉ found ++ listed ->
  find_spec self full_name w =
  (Ret (Some (mkSpec full_name self)),
   with_importers (alter (set_resolved (url imp full_name) "") self (importers w))
     (logged [FsFind (namespace_url imp); FsLs (namespace_url imp);
              FsFind (namespace_url imp); FsLs (namespace_url imp)] w)).
Proof.
  intros Himp Hhead Hfs Hfind Hls Hinit Hpy.
  destruct (claimed_split _ _ Hhead) as [rest Hsplit].
  unfold find_spec.
  read_importer Himp. rewrite Hsplit.
  rewrite String.eqb_refl. cbn [negb].
  rewrite (bind_ret _ _ _ _ _ (package_files_ok _ _ _ _ _ _ Himp Hfs Hfind Hls)).
  fold (package_form imp full_name). rewrite (bool_decide_eq_false_2 _ Hinit).
  rewrite (bind_ret _ _ _ _ _ (package_files_ok self imp
             (logged [FsFind (namespace_url imp); FsLs (namespace_url imp)] w)
             h found listed Himp Hfs Hfind Hls)).
  fold (flat_form imp full_name). rewrite (bool_decide_eq_false_2 _ Hpy).
  rewrite resolved_run, logged_logged. reflexivity.
Qed.

End Precedence.

(** ** Namespace-only packages *)

Section NamespaceOnly.
Context `{RemoteFS} `{PyRuntime}.

Lemma bare_module_builtins imp full_name :
  setdefault "__builtins__" VBuiltins
    (<["__source__" := VStr ""]>
     (<["__file__" := VStr (url imp full_name)]>
     (<["__url__" := VStr (url imp full_name)]>
     (<["__path__" := VStr (base_url imp)]>
     (<["__package__" := VStr full_name]> (module_type full_name))))))
  = bare_module imp full_name.
Proof.
  unfold setdefault, bare_module, module_type.
  rewrite !lookup_insert_ne by discriminate.
  rewrite lookup_empty. reflexivity.
Qed.

Lemma bare_module_names imp full_name k :
  is_Some (bare_module imp full_name !! k) -> k ∈ metadata_names.
Proof.
  unfold bare_module, module_type, metadata_names. intros Hk.
  repeat match type of Hk with
         | is_Some (<[?a := _]> _ !! _) =>
             destruct (decide (a = k)) as [<-|Hne];
             [ apply list_elem_of_In; cbn; tauto
             | rewrite lookup_insert_ne in Hk by exact Hne; clear Hne ]
         end.
  rewrite lookup_empty in Hk. destruct Hk as [? [=]].
Qed.

(** C9: for a name the importer claims, when the listing has neither
    [<path>/__init__.py] nor [<path>.py], resolution does not fail and
    fetches nothing; the source is the empty text, and loading returns a
    module, stored in [sys.modules], whose attributes are exactly the
    metadata [types.ModuleType], [create_module], [exec_module] and [exec]
    itself put there ([bare_module]): no attribute comes from a body. *)
Theorem namespace_only_package_loads self imp full_name w h found listed :
  runs_empty_source ->
  importers w !! self = Some imp ->
  head (Str.split "." full_name) = Some (namespace imp) ->
  url_to_fs (namespace_url imp) (extra_args imp) = Ret h ->
  fs_find h (namespace_url imp) = Ret found ->
  fs_ls h (namespace_url imp) = Ret listed ->
  package_form imp full_name ∉ found ++ listed ->
  flat_form imp full_name ∉ found ++ listed ->
  let m := length (modules w) in
  import_with self full_name w =
    (Ret (Some m),
     mkWorld (meta_path w)
       (dict_set full_name m (sys_modules w))
       (alter (set_compiled (mkCode "" (base_url imp))) self
          (alter (set_resolved (url imp full_name) "") self (importers w)))
       (modules w ++ [bare_module imp full_name])
       (fs_log w ++ [FsFind (namespace_url imp); FsLs (namespace_url imp);
                     FsFind (namespace_url imp); FsLs (namespace_url imp)])) /\
  forall k, is_Some (bare_module imp full_name !! k) -> k ∈ metadata_names.
Proof.
  intros [Hparse Hexec] Himp Hhead Hfs Hfind Hls Hinit Hpy m.
  split; [|apply bare_module_names].
  unfold import_with.
  rewrite (bind_ret _ _ _ _ _
             (find_spec_namespace_only _ _ _ _ _ _ _ Himp Hhead Hfs Hfind Hls Hinit Hpy)).
  set (imp' := set_resolved (url imp full_name) "" imp).
  set (w3 := with_importers _ _).
  assert (Himp' : importers w3 !! self = Some imp')
    by (apply lookup_alter_importer, Himp).
  unfold load_module.
  rewrite bind_run, (bind_ret _ _ _ _ _ (create_module_run self imp' _ w3 Himp')).
  erewrite (exec_module_run self imp' ""); [|exact Himp'|reflexivity].
  unfold py_compile. rewrite Hparse.
  rewrite bind_run, Hexec.
  unfold ret, with_compiled, with_source, with_importers, with_modules, w3, logged,
    with_importers, with_fs_log.
  cbn -[alter insert module_type].
  change (url imp' full_name) with (url imp full_name).
  rewrite !alter_last, bare_module_builtins. reflexivity.
Qed.

End NamespaceOnly.

(** ** The registry: [add_remote] *)

Section Registry.
Context `{RemoteFS} `{PyRuntime}.

Lemma first_bound_lookup ns heap candidates i :
  first_bound ns heap candidates = Some i ->
  i ∈ candidates /\ exists imp, heap !! i = Some imp /\ namespace imp = ns.
Proof.
  induction candidates as [|c rest IH]; cbn [first_bound]; [discriminate|].
  destruct (heap !! c) as [imp|] eqn:Hc; [|discriminate].
  destruct (String.eqb_spec ns (namespace imp)) as [->|Hne].
  - intros [= <-]. split; [left | eauto].
  - intros Hrest. destruct (IH Hrest) as [Hin Himp]. split; [right; exact Hin | exact Himp].
Qed.

Lemma remote_importers_meta_path i w :
  i ∈ remote_importers w -> RemoteFinder i ∈ meta_path w.
Proof.
  unfold remote_importers. intros Hin.
  apply list_elem_of_omap in Hin as [f [Hf Hsome]].
  destruct f as [a|cls]; [|discriminate]. injection Hsome as ->. exact Hf.
Qed.

(** The inner loop at a bound name, without reload: it returns the binding
    and touches nothing. *)
Lemma for_importers_bound ns base hdrs candidates importer w i :
  first_bound ns (importers w) candidates = Some i ->
  for_importers ns base false hdrs candidates importer w = (Ret (Return i), w).
Proof.
  revert importer.
  induction candidates as [|c rest IH]; intros importer; cbn [first_bound for_importers];
    [discriminate|].
  destruct (importers w !! c) as [imp|] eqn:Hc; [|discriminate].
  read_importer Hc.
  destruct (String.eqb ns (namespace imp)).
  - intros [= <-]. reflexivity.
  - intros Hrest. apply IH, Hrest.
Qed.

(** The inner loop when no importer has the name: it runs out. *)
Lemma for_importers_unbound ns base reload hdrs candidates importer w :
  Forall (fun i => exists imp, importers w !! i = Some imp /\ namespace imp <> ns)
         candidates ->
  exists importer',
    for_importers ns base reload hdrs candidates importer w = (Ret (Continue importer'), w).
Proof.
  intros Hall. revert importer.
  induction Hall as [|c rest [imp [Hc Hne]] _ IH]; intros importer; cbn [for_importers].
  - eexists. reflexivity.
  - read_importer Hc.
    destruct (String.eqb_spec ns (namespace imp)) as [->|_]; [contradiction|].
    apply IH.
Qed.

Lemma add_remote_bound_run ns rest base hdrs extra w i :
  bound_to ns w = Some i ->
  add_remote (ns :: rest) base false hdrs extra false w = (Ret i, w).
Proof.
  intros Hbound. unfold add_remote. cbn [for_namespaces].
  unfold bind, ret, get. cbn beta iota.
  rewrite (for_importers_bound _ _ _ _ _ _ _ Hbound).
  reflexivity.
Qed.

(** What the reload branch writes are the two mangled attributes: every
    attribute the methods read, and so [url], is as before. *)
Lemma set_mangled_reads hdrs base imp :
  base_url (set_mangled hdrs base imp) = base_url imp /\
  namespace_url (set_mangled hdrs base imp) = namespace_url imp /\
  headers (set_mangled hdrs base imp) = headers imp /\
  forall full_name, url (set_mangled hdrs base imp) full_name = url imp full_name.
Proof. repeat split. Qed.



(** A name no importer has yet: a new importer is made from the arguments
    and goes to the front of [sys.meta_path]. *)
Lemma add_remote_registers_front ns base reload hdrs extra w :
  Forall (fun i => exists imp, importers w !! i = Some imp /\ namespace imp <> ns)
         (remote_importers w) ->
  add_remote [ns] base reload hdrs extra false w =
  (Ret (length (importers w)),
   mkWorld (RemoteFinder (length (importers w)) :: meta_path w) (sys_modules w)
     (importers w ++ [__init__ ns base hdrs extra]) (modules w) (fs_log w)).
Proof.
  intros Hall. unfold add_remote. cbn [for_namespaces].
  destruct (for_importers_unbound ns base reload hdrs _ None w Hall) as [var Hscan].
  unfold bind, ret, get. cbn beta iota.
  rewrite Hscan. reflexivity.
Qed.

Lemma all_unbound_step base hdrs extra ns rest w :
  NoDup (ns :: rest) ->
  all_unbound (ns :: rest) w ->
  all_unbound rest (registered base hdrs extra w ns).
Proof.
  intros Hdup Hall. unfold all_unbound, registered, remote_importers in *.
  cbn [meta_path importers omap list_omap]. apply Forall_cons. split.
  - eexists. split; [apply list_lookup_middle; reflexivity|].
    cbn [namespace __init__]. apply NoDup_cons_1_1, Hdup.
  - eapply Forall_impl; [exact Hall|]. cbn beta.
    intros i [imp [Hi Hns]]. exists imp. split.
    + apply lookup_app_l_Some, Hi.
    + intros Hin. apply Hns. right. exact Hin.
Qed.

(** The outer loop over names none of which is bound: each one is
    registered in turn, and the local [importer] ends as the last one made. *)
Lemma for_namespaces_unbound base reload hdrs extra names : forall w importer,
  NoDup names ->
  all_unbound names w ->
  for_namespaces names base reload hdrs extra false importer w =
  (Ret (Continue (match names with
                  | [] => importer
                  | _ :: _ => Some (length (importers w) + length names - 1)
                  end)),
   fold_left (registered base hdrs extra) names w).
Proof.
  induction names as [|ns rest IH]; intros w importer Hdup Hall; [reflexivity|].
  cbn [for_namespaces fold_left].
  assert (Hscan : exists importer',
             for_importers ns base reload hdrs (remote_importers w) importer w =
             (Ret (Continue importer'), w)).
  { apply for_importers_unbound. eapply Forall_impl; [exact Hall|]. cbn beta.
    intros i [imp [Hi Hns]]. exists imp. split; [exact Hi|].
    intros Heq. apply Hns. rewrite Heq. left. }
  destruct Hscan as [importer' Hscan].
  unfold bind at 1. unfold ret at 1. unfold bind at 1. unfold get at 1.
  rewrite (bind_ret _ _ _ _ _ Hscan).
  unfold bind at 1. unfold alloc_importer at 1. unfold bind at 1. unfold modify at 1.
  change (with_meta_path _ _) with (registered base hdrs extra w ns).
  rewrite (IH _ _ (NoDup_cons_1_2 _ _ Hdup) (all_unbound_step _ _ _ _ _ _ Hdup Hall)).
  f_equal. f_equal. f_equal.
  destruct rest; cbn [registered importers length]; rewrite ?length_app; cbn [length];
    f_equal; lia.
Qed.

Lemma registered_all base hdrs extra names : forall w,
  meta_path (fold_left (registered base hdrs extra) names w) =
    rev (map RemoteFinder (seq (length (importers w)) (length names))) ++ meta_path w /\
  importers (fold_left (registered base hdrs extra) names w) =
    importers w ++ map (fun ns => __init__ ns base hdrs extra) names /\
  sys_modules (fold_left (registered base hdrs extra) names w) = sys_modules w /\
  fs_log (fold_left (registered base hdrs extra) names w) = fs_log w.
Proof.
  induction names as [|ns rest IH]; intros w; cbn [fold_left].
  - cbn. rewrite app_nil_r. repeat split.
  - destruct (IH (registered base hdrs extra w ns)) as (Hmeta & Himp & Hmod & Hlog).
    rewrite Hmeta, Himp, Hmod, Hlog.
    cbn [registered meta_path importers sys_modules fs_log length seq map rev].
    rewrite length_app, Nat.add_1_r, <- !app_assoc. repeat split.
Qed.

(** Distinct names, none of them bound, no connection test: every name
    gets an importer, each new one in front of those before it, and the
    call returns the one made last. *)
Lemma add_remote_registers_all names base reload hdrs extra w :
  names <> [] ->
  NoDup names ->
  all_unbound names w ->
  add_remote names base reload hdrs extra false w =
  (Ret (length (importers w) + length names - 1),
   fold_left (registered base hdrs extra) names w).
Proof.
  intros Hne Hdup Hall. unfold add_remote.
  rewrite (bind_ret _ _ _ _ _ (for_namespaces_unbound _ _ _ _ _ _ _ Hdup Hall)).
  destruct names; [contradiction | reflexivity].
Qed.

(** C8 (amended): with [reload] false and [test_connection] false, a call
    whose first name is already bound returns the importer that binds it
    and leaves the whole world as it was: [sys.meta_path] gets no new
    entry, the importer keeps its headers and base URL, and no call
    reaches the remote store. *)
Theorem add_remote_bound_is_noop ns rest base hdrs extra w i :
  bound_to ns w = Some i ->
  add_remote (ns :: rest) base false hdrs extra false w = (Ret i, w) /\
  RemoteFinder i ∈ meta_path w /\
  exists imp, importers w !! i = Some imp /\ namespace imp = ns.
Proof.
  intros Hbound. split; [apply add_remote_bound_run, Hbound|].
  destruct (first_bound_lookup _ _ _ _ Hbound) as [Hin Himp].
  split; [apply remote_importers_meta_path, Hin | exact Himp].
Qed.

(** C10: with no names the loop body never runs, [return importer] reads
    a local that was never bound, and the call raises
    [UnboundLocalError]; the world, and with it [sys.meta_path], is as
    before. *)
Theorem add_remote_no_names_unbound base reload hdrs extra test_connection w :
  exists msg,
    add_remote [] base reload hdrs extra test_connection w =
    (Raise (mkExn UnboundLocalError msg), w).
Proof. eexists. reflexivity. Qed.

End Registry.

(** ** The statements at work on the demo store *)

Section Runs.

#[local] Existing Instance Demo.store.
#[local] Existing Instance Demo.runtime.

Lemma find_spec_prefers_package_witness :
  find_spec 0 "pkg.sub" Demo.world =
  (Ret (Some (mkSpec "pkg.sub" 0)),
   mkWorld [RemoteFinder 0; OtherFinder "PathFinder"] []
     [set_resolved "http://host/lib/pkg/sub/__init__.py" "kind=package" Demo.pkg] []
     [FsFind "http://host/lib/pkg"; FsLs "http://host/lib/pkg";
      FsCat "http://host/lib/pkg/sub/__init__.py"]).
Proof.
  refine (find_spec_prefers_package 0 Demo.pkg "pkg.sub" Demo.world tt _ _ _ _ _ _ _ _);
    [reflexivity | reflexivity | reflexivity | reflexivity | reflexivity |].
  apply (bool_decide_unpack _). vm_compute. exact I.
Defined.

(** The flat form alone: [pkg.loop] has no [__init__.py]; its body looks
    [pkg.loop] up while it runs and finds the module being loaded: one
    [cat], one module object. *)
Lemma import_self_referring_module :
  import_with 0 "pkg.loop" Demo.world =
  (Ret (Some 0),
   mkWorld [RemoteFinder 0; OtherFinder "PathFinder"] [("pkg.loop", 0)]
     [set_compiled (mkCode "import pkg.loop" "http://host/lib/")
        (set_resolved "http://host/lib/pkg/loop.py" "import pkg.loop" Demo.pkg)]
     [<["pkg.loop" := VModule 0]>
        (<["__builtins__" := VBuiltins]>
        (<["__source__" := VStr "import pkg.loop"]>
        (<["__file__" := VStr "http://host/lib/pkg/loop"]>
        (<["__url__" := VStr "http://host/lib/pkg/loop"]>
        (<["__path__" := VStr "http://host/lib/"]>
        (<["__package__" := VStr "pkg.loop"]> (module_type "pkg.loop")))))))]
     [FsFind "http://host/lib/pkg"; FsLs "http://host/lib/pkg";
      FsFind "http://host/lib/pkg"; FsLs "http://host/lib/pkg";
      FsCat "http://host/lib/pkg/loop.py"]).
Proof. vm_compute. reflexivity. Qed.

Lemma create_module_caches_before_exec_witness :
  exists w1,
    create_module 0 (mkSpec "pkg.loop" 0) Demo.world_resolved = (Ret 0, w1) /\
    modules Demo.world_resolved !! 0 = None /\
    modules w1 = [created_module Demo.pkg "pkg.loop"] /\
    modules w1 !! 0 = Some (created_module Demo.pkg "pkg.loop") /\
    sys_modules w1 = [("pkg.loop", 0)] /\
    dict_get "pkg.loop" (sys_modules w1) = Some 0 /\
    importers w1 = importers Demo.world_resolved /\
    load_module 0 (mkSpec "pkg.loop" 0) Demo.world_resolved =
      bind (py_exec (mkCode "import pkg.loop" "http://host/lib/") 0) (fun _ => ret 0)
        (with_compiled 0 (mkCode "import pkg.loop" "http://host/lib/")
           (with_source 0 "import pkg.loop" w1)) /\
    forall code,
      dict_get "pkg.loop"
        (sys_modules (with_compiled 0 code (with_source 0 "import pkg.loop" w1))) = Some 0 /\
      modules (with_compiled 0 code (with_source 0 "import pkg.loop" w1)) !! 0 =
        Some (<["__source__" := VStr "import pkg.loop"]> (created_module Demo.pkg "pkg.loop")).
Proof.
  refine (create_module_caches_before_exec 0
            (set_resolved "http://host/lib/pkg/loop.py" "import pkg.loop" Demo.pkg)
            (mkSpec "pkg.loop" 0) "import pkg.loop" Demo.world_resolved _ _);
    reflexivity.
Defined.

Lemma get_raw_source_code_reraises_witness :
  let e := mkExn (OtherException "FileNotFoundError") "http://host/lib/pkg/gone.py" in
  exists calls,
    _get_raw_source_code 0 "http://host/lib/pkg/gone.py" Demo.world =
      (Raise (mkExn ModuleNotFoundError (error_msg "http://host/lib/pkg/gone.py" e)),
       logged calls Demo.world) /\
    Str.contains "http://host/lib/pkg/gone.py"
      (error_msg "http://host/lib/pkg/gone.py" e) = true /\
    Str.contains (exn_str e) (error_msg "http://host/lib/pkg/gone.py" e) = true.
Proof.
  intros e.
  refine (get_raw_source_code_reraises 0 Demo.pkg "http://host/lib/pkg/gone.py"
            Demo.world e _ _); [reflexivity|].
  eapply fails_cat; reflexivity.
Defined.

Lemma find_spec_defers_witness :
  find_spec 0 "other.mod" Demo.world = (Ret None, Demo.world).
Proof.
  refine (find_spec_defers 0 Demo.pkg "other.mod" Demo.world _ _);
    [reflexivity | discriminate].
Defined.

Lemma namespace_only_package_loads_witness :
  import_with 0 "pkg.dir" Demo.world =
    (Ret (Some 0),
     mkWorld [RemoteFinder 0; OtherFinder "PathFinder"] [("pkg.dir", 0)]
       (alter (set_compiled (mkCode "" "http://host/lib/")) 0
          (alter (set_resolved (url Demo.pkg "pkg.dir") "") 0 [Demo.pkg]))
       [bare_module Demo.pkg "pkg.dir"]
       [FsFind "http://host/lib/pkg"; FsLs "http://host/lib/pkg";
        FsFind "http://host/lib/pkg"; FsLs "http://host/lib/pkg"]) /\
  forall k, is_Some (bare_module Demo.pkg "pkg.dir" !! k) -> k ∈ metadata_names.
Proof.
  refine (namespace_only_package_loads 0 Demo.pkg "pkg.dir" Demo.world tt _ _
            _ _ _ _ _ _ _ _).
  - split; reflexivity.
  - reflexivity.
  - reflexivity.
  - reflexivity.
  - reflexivity.
  - reflexivity.
  - apply (bool_decide_eq_false_1 _). vm_compute. reflexivity.
  - apply (bool_decide_eq_false_1 _). vm_compute. reflexivity.
Defined.

Lemma add_remote_bound_is_noop_witness :
  add_remote ["pkg"; "extra"] "http://mirror/lib/" false ∅ [] false Demo.world =
    (Ret 0, Demo.world) /\
  RemoteFinder 0 ∈ meta_path Demo.world /\
  exists imp, importers Demo.world !! 0 = Some imp /\ namespace imp = "pkg".
Proof.
  refine (add_remote_bound_is_noop "pkg" ["extra"] "http://mirror/lib/" ∅ []
            Demo.world 0 _).
  reflexivity.
Defined.

(** C8 as stated fails: with [test_connection] set, registering the bound
    name [pkg] again without [reload] still asks the remote store whether
    the namespace URL exists. *)
Lemma add_remote_bound_checks_connection :
  bound_to "pkg" Demo.world = Some 0 /\
  fs_log Demo.world = [] /\
  add_remote ["pkg"] "http://host/lib/" false ∅ [] true Demo.world =
    (Ret 0, logged [FsExists "http://host/lib/pkg"] Demo.world).
Proof. repeat split; vm_compute; reflexivity. Qed.

(** C7 at work on a sequence whose first name is bound: the call returns
    at [pkg]; [extra], not bound before, is not bound after, and
    [sys.meta_path] is as it was. *)
Theorem add_remote_stops_at_bound_name :
  bound_to "pkg" Demo.world = Some 0 /\
  bound_to "extra" Demo.world = None /\
  add_remote ["pkg"; "extra"] "http://host/lib/" false ∅ [] false Demo.world =
    (Ret 0, Demo.world).
Proof. repeat split; vm_compute; reflexivity. Qed.

(** The same two names the other way round: [extra] is new and goes to the
    front of [sys.meta_path], then the call returns at [pkg]. *)
Lemma add_remote_new_then_bound :
  add_remote ["extra"; "pkg"] "http://host/lib/" false ∅ [] false Demo.world =
    (Ret 0,
     mkWorld [RemoteFinder 1; RemoteFinder 0; OtherFinder "PathFinder"] []
       [Demo.pkg; __init__ "extra" "http://host/lib/" ∅ []] [] []).
Proof. vm_compute. reflexivity. Qed.

(** C3 at work: [pkg] is bound to [http://host/lib/] with no headers; the
    call asks for a reload with another base URL and a header.  After it
    the importer's [base_url], [namespace_url] and [headers] are the old
    ones, so [url] still resolves against the old base; the new values sit
    in the two mangled attributes nothing reads.  The modules picked for
    reloading are those whose name contains [pkg]: [subpkgs], which is not
    under the namespace, is reloaded too. *)
Theorem add_remote_reload_keeps_binding :
  let hdrs : gmap string string := <["X-hash" := "abc"]> ∅ in
  let r := add_remote ["pkg"] "http://mirror/lib/" true hdrs [] false Demo.world_cached in
  fst r = Ret 0 /\
  importers (snd r) =
    [mkImporter "pkg" "http://host/lib/" "http://host/lib/pkg" ∅ []
       (Some hdrs) (Some "http://mirror/lib/") None None None] /\
  ((fun imp => url imp "pkg.sub") <$> importers (snd r) !! 0) =
    Some "http://host/lib/pkg/sub" /\
  reload_targets "pkg" Demo.world_cached = ["pkg"; "subpkgs"] /\
  under_namespace "pkg" "subpkgs" = false /\
  (modules (snd r) !! 1 ≫= lookup "__reloaded__") = Some (VInt 1).
Proof. repeat split; vm_compute; reflexivity. Qed.

End Runs.

(** * Further properties of the module *)

(** ** [sanitize_url]: what the result looks like *)

Section SanitizeShape.

Local Abbreviation slash := "/"%char.
Local Arguments Ascii.eqb : simpl never.

Lemma matches_here_prefix2 c s :
  matches_here (String c s) = matches_here (String c (prefix2 s)).
Proof.
  unfold matches_here, match_here.
  destruct s as [|c1 [|c2 t]]; cbn [prefix2]; try reflexivity.
  destruct (negb (Ascii.eqb c ":") && Ascii.eqb c1 slash && Ascii.eqb c2 slash);
    reflexivity.
Qed.

Lemma matches_here_spec c c1 c2 t :
  matches_here (String c (String c1 (String c2 t))) =
  negb (Ascii.eqb c ":") && Ascii.eqb c1 slash && Ascii.eqb c2 slash.
Proof.
  unfold matches_here, match_here.
  destruct (negb (Ascii.eqb c ":") && Ascii.eqb c1 slash && Ascii.eqb c2 slash);
    reflexivity.
Qed.

Lemma re_sub_single n c : re_sub n (String c "") = String c "".
Proof.
  destruct n; [reflexivity|]. rewrite re_sub_step. cbn [match_here].
  rewrite re_sub_empty. reflexivity.
Qed.

(** The scan keeps the first two characters. *)
Lemma re_sub_prefix2 n : forall s,
  String.length s <= n -> prefix2 (re_sub n s) = prefix2 s.
Proof.
  induction n as [|n IH]; intros s Hlen; [reflexivity|].
  rewrite re_sub_step.
  destruct s as [|c [|c1 [|c2 t]]]; try reflexivity.
  - cbn [match_here]. rewrite re_sub_empty. reflexivity.
  - cbn [match_here]. rewrite re_sub_single. reflexivity.
  - cbn [match_here].
    destruct (negb (Ascii.eqb c ":") && Ascii.eqb c1 slash && Ascii.eqb c2 slash).
    + reflexivity.
    + cbn [String.length] in Hlen.
      pose proof (IH (String c1 (String c2 t)) ltac:(cbn [String.length]; lia)) as Hp.
      destruct (re_sub n (String c1 (String c2 t))) as [|a [|b r]]; cbn [prefix2] in Hp |- *;
        try discriminate.
      injection Hp as -> ->. reflexivity.
Qed.

Lemma head_not_slash s :
  Str.startswith "/" s = false ->
  forall c, matches_here (String c (String slash s)) = false /\
            matches_here (String slash s) = false.
Proof.
  intros Hs c. destruct s as [|a t].
  - split; reflexivity.
  - cbn [Str.startswith] in Hs. rewrite andb_true_r in Hs.
    split.
    + rewrite matches_here_spec, (Ascii.eqb_sym a), Hs. apply andb_false_r.
    + destruct t as [|b t']; [reflexivity|].
      rewrite matches_here_spec, (Ascii.eqb_sym a), Hs.
      rewrite andb_false_r. reflexivity.
Qed.

Lemma startswith_prefix2 s : Str.startswith "/" (prefix2 s) = Str.startswith "/" s.
Proof. destruct s as [|a [|b t]]; reflexivity. Qed.

(** After the scan the pattern matches nowhere. *)
Lemma re_sub_no_match n : forall s,
  String.length s <= n -> matches_somewhere (re_sub n s) = false.
Proof.
  induction n as [|n IH]; intros s Hlen.
  - destruct s; [reflexivity | cbn [String.length] in Hlen; lia].
  - rewrite re_sub_step.
    destruct (match_here s) as [[g1 rest]|] eqn:Em.
    + pose proof (match_here_rest _ _ _ Em) as Hrest.
      destruct s as [|c [|c1 [|c2 t]]]; try discriminate.
      cbn [match_here] in Em.
      destruct (negb (Ascii.eqb c ":") && Ascii.eqb c1 slash && Ascii.eqb c2 slash) eqn:Ec;
        [|discriminate].
      injection Em as <- <-.
      apply andb_prop in Ec as [Ec _]. apply andb_prop in Ec as [_ E1].
      apply Ascii.eqb_eq in E1. subst c1.
      rewrite !append_cons, append_empty.
      assert (Hhead : Str.startswith "/" (re_sub n (lstrip_slashes t)) = false).
      { rewrite <- startswith_prefix2, re_sub_prefix2, startswith_prefix2.
        - apply lstrip_slashes_head.
        - cbn [String.length] in Hlen, Hrest. lia. }
      destruct (head_not_slash _ Hhead c) as [H1 H2].
      cbn [matches_somewhere]. rewrite H1, H2. cbn [orb].
      apply IH. cbn [String.length] in Hlen, Hrest. lia.
    + destruct s as [|c t]; [reflexivity|].
      cbn [matches_somewhere].
      rewrite IH by (cbn [String.length] in Hlen; lia).
      rewrite orb_false_r, matches_here_prefix2, re_sub_prefix2
        by (cbn [String.length] in Hlen; lia).
      rewrite <- matches_here_prefix2. unfold matches_here. rewrite Em. reflexivity.
Qed.

(** Where the pattern matches nowhere the scan copies its input. *)
Lemma re_sub_fixed n : forall s, matches_somewhere s = false -> re_sub n s = s.
Proof.
  induction n as [|n IH]; intros s Hs; [reflexivity|].
  rewrite re_sub_step. destruct s as [|c t]; [reflexivity|].
  cbn [matches_somewhere] in Hs. apply orb_false_elim in Hs as [Hhere Hrest].
  unfold matches_here in Hhere.
  destruct (match_here (String c t)); [discriminate|].
  rewrite (IH _ Hrest). reflexivity.
Qed.

Lemma matches_somewhere_suffix pre s :
  matches_somewhere (pre +:+ s) = false -> matches_here s = false.
Proof.
  induction pre as [|a pre IH].
  - rewrite append_empty. destruct s; cbn [matches_somewhere]; intros Hs;
      apply orb_false_elim in Hs; apply Hs.
  - rewrite append_cons. cbn [matches_somewhere]. intros Hs.
    apply orb_false_elim in Hs as [_ Hs]. apply IH, Hs.
Qed.

(** X1: [sanitize_url] is idempotent: sanitizing a sanitized URL changes
    nothing. *)
Theorem sanitize_url_idempotent (s : string) :
  sanitize_url (sanitize_url s) = sanitize_url s.
Proof.
  unfold sanitize_url at 1. apply re_sub_fixed.
  unfold sanitize_url. apply re_sub_no_match. lia.
Qed.

(** X2: in a sanitized URL, a character followed by two slashes is always a
    colon: a double slash is left only at the very start or behind a
    colon. *)
Theorem sanitize_url_double_slash_after_colon (s pre post : string) (c : ascii) :
  sanitize_url s = pre +:+ String c (String slash (String slash post)) ->
  c = ":"%char.
Proof.
  intros Hs.
  pose proof (re_sub_no_match (String.length s) s (Nat.le_refl _)) as Hno.
  fold (sanitize_url s) in Hno. rewrite Hs in Hno.
  apply matches_somewhere_suffix in Hno.
  rewrite matches_here_spec, !Ascii.eqb_refl, !andb_true_r in Hno.
  apply negb_false_iff, Ascii.eqb_eq in Hno. exact Hno.
Qed.

Lemma sanitize_url_double_slash_after_colon_witness :
  sanitize_url "s3:///bucket//key" = "s3" +:+ String ":" (String slash (String slash "bucket/key")) /\
  ":"%char = ":"%char.
Proof.
  split; [reflexivity|].
  apply (sanitize_url_double_slash_after_colon "s3:///bucket//key" "s3" "bucket/key" ":").
  reflexivity.
Defined.

(** X3: an input without [://] that begins with a run of slashes comes out
    with that run cut to two slashes and every other run to one. *)
Theorem sanitize_url_leading_run_kept (s : string) :
  has_scheme_slashes s = false ->
  Str.startswith "//" s = true ->
  sanitize_url s = String slash (collapse_slashes s).
Proof. apply sanitize_url_leading_run. Qed.

Lemma sanitize_url_leading_run_kept_witness :
  sanitize_url "///srv//lib/" = String slash (collapse_slashes "///srv//lib/").
Proof. apply (sanitize_url_leading_run_kept "///srv//lib/"); reflexivity. Defined.

End SanitizeShape.

(** ** [validate_variable_string] *)

Section ValidateVariableString.

Lemma is_digit_word c : is_digit c = true -> is_word c = true.
Proof. unfold is_digit, is_word. cbn zeta. intros ->. reflexivity. Qed.

Lemma word_only_cons c t : word_only (String c t) = is_word c && word_only t.
Proof. reflexivity. Qed.

Lemma sub_nonword_word_only s : word_only (sub_nonword s) = true.
Proof.
  induction s as [|c t IH]; [reflexivity|].
  cbn [sub_nonword]. rewrite word_only_cons, IH, andb_true_r.
  destruct (is_word c) eqn:E; [exact E | reflexivity].
Qed.

Lemma sub_nonword_length s : String.length (sub_nonword s) = String.length s.
Proof. induction s as [|c t IH]; [reflexivity|]. cbn [sub_nonword String.length]. lia. Qed.

Lemma sub_nonword_fixed s : sub_nonword s = s <-> word_only s = true.
Proof.
  induction s as [|c t IH]; [split; reflexivity|].
  cbn [sub_nonword]. rewrite word_only_cons. split.
  - intros [= Hc Ht]. apply IH in Ht. rewrite Ht, andb_true_r.
    destruct (is_word c) eqn:E; [reflexivity|]. subst c. discriminate E.
  - intros Hw. apply andb_prop in Hw as [Hc Ht]. rewrite Hc. f_equal. apply IH, Ht.
Qed.

Lemma validate_word_only s :
  word_only (validate_variable_string s) = true /\
  starts_with_digit (validate_variable_string s) = false.
Proof.
  destruct s as [|c t]; [split; reflexivity|].
  unfold validate_variable_string.
  destruct (is_word c) eqn:Ew; cbn [negb].
  - destruct (is_digit c) eqn:Ed.
    + rewrite !word_only_cons, Ew, sub_nonword_word_only. split; reflexivity.
    + rewrite word_only_cons, Ew, sub_nonword_word_only.
      cbn [starts_with_digit]. rewrite Ed. split; reflexivity.
  - rewrite word_only_cons, sub_nonword_word_only. split; reflexivity.
Qed.

Lemma validate_keeps s :
  word_only s = true -> starts_with_digit s = false ->
  validate_variable_string s = s.
Proof.
  destruct s as [|c t]; [reflexivity|].
  rewrite word_only_cons. cbn [starts_with_digit]. intros Hw Hd.
  apply andb_prop in Hw as [Hc Ht].
  unfold validate_variable_string. rewrite Hc, Hd. cbn [negb].
  f_equal. apply sub_nonword_fixed, Ht.
Qed.

(** X4: the result of [validate_variable_string] consists of word
    characters only and does not begin with a digit; it is one character
    longer than the input when the input begins with a digit and as long
    as the input otherwise, so it is empty exactly for the empty input. *)
Theorem validate_variable_string_shape (s : string) :
  word_only (validate_variable_string s) = true /\
  starts_with_digit (validate_variable_string s) = false /\
  String.length (validate_variable_string s) =
    String.length s + (if starts_with_digit s then 1 else 0).
Proof.
  destruct (validate_word_only s) as [Hw Hd].
  split; [exact Hw|]. split; [exact Hd|].
  destruct s as [|c t]; [reflexivity|].
  unfold validate_variable_string. cbn [starts_with_digit].
  destruct (is_word c) eqn:Ew; cbn [negb].
  - destruct (is_digit c); cbn [String.length]; rewrite sub_nonword_length; lia.
  - assert (Ed : is_digit c = false).
    { destruct (is_digit c) eqn:Ed; [|reflexivity].
      apply is_digit_word in Ed. congruence. }
    rewrite Ed. cbn [String.length]. rewrite sub_nonword_length. lia.
Qed.

(** X5: [validate_variable_string] leaves a string as it is exactly when
    the string consists of word characters and does not begin with a
    digit. *)
Theorem validate_variable_string_fixed (s : string) :
  validate_variable_string s = s <->
  word_only s = true /\ starts_with_digit s = false.
Proof.
  split.
  - intros Hs. rewrite <- Hs. apply validate_word_only.
  - intros [Hw Hd]. apply validate_keeps; assumption.
Qed.

(** X6: [validate_variable_string] is idempotent. *)
Theorem validate_variable_string_idempotent (s : string) :
  validate_variable_string (validate_variable_string s) = validate_variable_string s.
Proof. apply validate_keeps; apply validate_word_only. Qed.

Example validate_variable_string_runs :
  (validate_variable_string "2nd-try.py", validate_variable_string "pkg_a",
   validate_variable_string "") = ("_2nd_try_py", "pkg_a", "").
Proof. reflexivity. Qed.

End ValidateVariableString.

(** ** [url]: from a dotted name to a URL *)

Section UrlOfName.

Local Arguments Ascii.eqb : simpl never.
Local Arguments String.eqb : simpl never.

Local Abbreviation free_of_separators s :=
  (forallb (fun c => negb (Ascii.eqb c ".") && negb (Ascii.eqb c "/"))
           (list_ascii_of_string s)).



Lemma append_nil_r s : s +:+ "" = s.
Proof. induction s as [|c t IH]; [reflexivity|]. rewrite append_cons, IH. reflexivity. Qed.














End UrlOfName.

(** ** [find_spec]: what it leaves alone, and how listing errors surface *)

Section ResolverFrame.
Context `{RemoteFS} `{PyRuntime}.

Lemma same_settings_refl imp : same_settings imp imp.
Proof. repeat split. Qed.

Lemma same_settings_trans a b c :
  same_settings a b -> same_settings b c -> same_settings a c.
Proof.
  unfold same_settings. intros (? & ? & ? & ? & ?) (? & ? & ? & ? & ?).
  repeat split; congruence.
Qed.

Lemma only_resolves_refl self w : only_resolves self w w.
Proof.
  unfold only_resolves. repeat split; try reflexivity.
  - intros imp Himp. exists imp. split; [exact Himp | apply same_settings_refl].
  - exists []. rewrite app_nil_r. reflexivity.
Qed.

Lemma only_resolves_trans self w1 w2 w3 :
  only_resolves self w1 w2 -> only_resolves self w2 w3 -> only_resolves self w1 w3.
Proof.
  intros (Hm & Hs & Hmod & Hlen & Hother & Hself & [c1 Hlog])
         (Hm' & Hs' & Hmod' & Hlen' & Hother' & Hself' & [c2 Hlog']).
  unfold only_resolves. repeat split; try congruence.
  - intros j Hj. rewrite (Hother' j Hj). apply Hother, Hj.
  - intros imp Himp. destruct (Hself imp Himp) as (imp2 & H2 & S2).
    destruct (Hself' imp2 H2) as (imp3 & H3 & S3).
    exists imp3. split; [exact H3 | eapply same_settings_trans; eassumption].
  - exists (c1 ++ c2). rewrite Hlog', Hlog, app_assoc. reflexivity.
Qed.

Lemma only_resolves_logged self calls w : only_resolves self w (logged calls w).
Proof.
  unfold only_resolves. repeat split.
  - intros imp Himp. exists imp. split; [exact Himp | apply same_settings_refl].
  - exists calls. reflexivity.
Qed.

Lemma frame_bind {A B} self (m : M A) (k : A -> M B) w :
  only_resolves self w (snd (m w)) ->
  (forall a w1, only_resolves self w1 (snd (k a w1))) ->
  only_resolves self w (snd (bind m k w)).
Proof.
  intros Hm Hk. unfold bind. destruct (m w) as [[a|e] w1]; cbn [snd] in *.
  - eapply only_resolves_trans; [exact Hm | apply Hk].
  - exact Hm.
Qed.

Lemma get_importer_frame self i w : only_resolves self w (snd (get_importer i w)).
Proof.
  unfold get_importer. destruct (importers w !! i); apply only_resolves_refl.
Qed.

Lemma package_files_frame self i w : only_resolves self w (snd (package_files i w)).
Proof.
  unfold package_files. apply frame_bind; [apply get_importer_frame|].
  intros imp w1. cbn zeta. apply frame_bind.
  { unfold fs, lift. apply only_resolves_refl. }
  intros h w2. apply frame_bind; [apply (only_resolves_logged _ [_])|].
  intros found w3. apply frame_bind; [apply (only_resolves_logged _ [_])|].
  intros listed w4. apply only_resolves_refl.
Qed.

Lemma catch_frame {A} self (m : M A) (h : Exn -> M A) w :
  only_resolves self w (snd (m w)) ->
  (forall e w1, only_resolves self w1 (snd (h e w1))) ->
  only_resolves self w (snd (catch m h w)).
Proof.
  intros Hm Hh. unfold catch. destruct (m w) as [[a|e] w1]; cbn [snd] in *.
  - exact Hm.
  - eapply only_resolves_trans; [exact Hm | apply Hh].
Qed.

Lemma get_raw_source_code_frame self i u w :
  only_resolves self w (snd (_get_raw_source_code i u w)).
Proof.
  unfold _get_raw_source_code. apply catch_frame.
  - apply frame_bind; [apply get_importer_frame|].
    intros imp w1. apply frame_bind.
    { unfold fs, lift. apply only_resolves_refl. }
    intros h w2. apply frame_bind; [apply (only_resolves_logged _ [_])|].
    intros raw w3. apply only_resolves_refl.
  - intros e w1. apply only_resolves_refl.
Qed.

Lemma resolved_frame self full_name u src w :
  only_resolves self w (snd (resolved self full_name u src w)).
Proof.
  rewrite resolved_run. cbn [snd]. unfold only_resolves. cbn.
  repeat split.
  - apply length_alter.
  - intros j Hj. apply list_lookup_alter_ne. congruence.
  - intros imp Himp. exists (set_resolved u src imp).
    split; [apply lookup_alter_importer, Himp | repeat split].
  - exists []. rewrite app_nil_r. reflexivity.
Qed.

(** X9: whatever the name, the store and the outcome, [find_spec] leaves
    [sys.meta_path], [sys.modules], the module objects and every other
    importer as they are; on its own importer it changes no attribute that
    [__init__] set; and it only adds to the record of remote calls. *)
Theorem find_spec_only_resolves self full_name w :
  only_resolves self w (snd (find_spec self full_name w)).
Proof.
  unfold find_spec. apply frame_bind; [apply get_importer_frame|].
  intros imp w1.
  destruct (Str.split "." full_name) as [|package_name rest];
    [apply only_resolves_refl|].
  destruct (negb (String.eqb package_name (namespace imp)));
    [apply only_resolves_refl|].
  cbn zeta. apply frame_bind; [apply package_files_frame|].
  intros files w2. destruct (bool_decide _).
  - apply frame_bind; [apply get_raw_source_code_frame|].
    intros src w3. apply resolved_frame.
  - apply frame_bind; [apply package_files_frame|].
    intros files' w3. destruct (bool_decide _).
    + apply frame_bind; [apply get_raw_source_code_frame|].
      intros src w4. apply resolved_frame.
    + apply resolved_frame.
Qed.

(** X10: when the recursive listing [fs.find] fails for a claimed name,
    [find_spec] raises that very exception (it is not turned into
    [ModuleNotFoundError]); [fs.ls] is not called, nothing is fetched and
    the importer is not written to. *)
Theorem find_spec_listing_error self imp full_name w h e :
  importers w !! self = Some imp ->
  head (Str.split "." full_name) = Some (namespace imp) ->
  url_to_fs (namespace_url imp) (extra_args imp) = Ret h ->
  fs_find h (namespace_url imp) = Raise e ->
  find_spec self full_name w = (Raise e, logged [FsFind (namespace_url imp)] w).
Proof.
  intros Himp Hhead Hfs Hfind.
  destruct (claimed_split _ _ Hhead) as [rest Hsplit].
  unfold find_spec. read_importer Himp. rewrite Hsplit.
  rewrite String.eqb_refl. cbn [negb]. cbn zeta.
  erewrite bind_raise; [reflexivity|].
  unfold package_files. read_importer Himp. cbn zeta.
  unfold fs, lift. rewrite bind_run, Hfs.
  rewrite bind_run, fs_call_run, Hfind. reflexivity.
Qed.

End ResolverFrame.

(** ** [create_module] and [exec_module]: the cache and the failures *)

Section LoaderEdges.
Context `{RemoteFS} `{PyRuntime}.

Lemma dict_get_set_ne {V} k k' (v : V) d :
  k' <> k -> dict_get k' (dict_set k v d) = dict_get k' d.
Proof.
  intros Hne. induction d as [|[k0 v0] d IH]; cbn [dict_set dict_get].
  - destruct (String.eqb_spec k' k); [contradiction | reflexivity].
  - destruct (String.eqb_spec k k0) as [->|Hk]; cbn [dict_get].
    + destruct (String.eqb_spec k' k0); [contradiction | reflexivity].
    + destruct (String.eqb k' k0); [reflexivity | exact IH].
Qed.

Lemma dict_set_keys {V} k (v : V) d :
  map fst (dict_set k v d) =
  match dict_get k d with
  | Some _ => map fst d
  | None => map fst d ++ [k]
  end.
Proof.
  induction d as [|[k0 v0] d IH]; cbn [dict_set dict_get]; [reflexivity|].
  destruct (String.eqb_spec k k0) as [->|Hk]; [reflexivity|].
  cbn [map fst]. rewrite IH. destruct (dict_get k d); reflexivity.
Qed.

(** X11: [create_module] always makes a new module object (the heap grows
    by exactly that object, at an address that held nothing) and binds the
    spec's name to it, also when a module of that name is cached already:
    the name keeps its place in [sys.modules] (or is added at the end), no
    other name is rebound, no existing module object is touched, and
    nothing else in the world changes. *)
Theorem create_module_rebinds self imp spec w :
  importers w !! self = Some imp ->
  exists w1,
    create_module self spec w = (Ret (length (modules w)), w1) /\
    modules w !! length (modules w) = None /\
    modules w1 = modules w ++ [created_module imp (spec_name spec)] /\
    modules w1 !! length (modules w) = Some (created_module imp (spec_name spec)) /\
    dict_get (spec_name spec) (sys_modules w1) = Some (length (modules w)) /\
    (forall k, k <> spec_name spec ->
       dict_get k (sys_modules w1) = dict_get k (sys_modules w)) /\
    map fst (sys_modules w1) =
      match dict_get (spec_name spec) (sys_modules w) with
      | Some _ => map fst (sys_modules w)
      | None => map fst (sys_modules w) ++ [spec_name spec]
      end /\
    (forall m d, modules w !! m = Some d -> modules w1 !! m = Some d) /\
    meta_path w1 = meta_path w /\ importers w1 = importers w /\ fs_log w1 = fs_log w.
Proof.
  intros Himp. eexists. split; [apply (create_module_run self imp spec w Himp)|].
  cbn [sys_modules modules meta_path importers fs_log].
  split; [apply lookup_ge_None_2; reflexivity|].
  split; [reflexivity|].
  split; [apply list_lookup_middle; reflexivity|].
  split; [apply dict_get_set|].
  split; [intros k Hk; apply dict_get_set_ne, Hk|].
  split; [apply dict_set_keys|].
  split; [intros m d Hm; apply lookup_app_l_Some, Hm|].
  repeat split.
Qed.

(** X12: on an importer whose [find_spec] has not resolved anything yet,
    [exec_module] raises [AttributeError] and changes nothing. *)
Theorem exec_module_unresolved self imp module w :
  importers w !! self = Some imp ->
  _raw_source_code imp = None ->
  exists msg, exec_module self module w = (Raise (mkExn AttributeError msg), w).
Proof.
  intros Himp Hsrc. eexists. unfold exec_module. read_importer Himp.
  rewrite Hsrc. reflexivity.
Qed.


End LoaderEdges.

(** ** [add_remote]: the connection test, many names, the registry *)

Section RegistryEdges.
Context `{RemoteFS} `{PyRuntime}.

Lemma not_found_msg_carries ns u :
  Str.contains ns (not_found_msg ns u) = true /\
  Str.contains u (not_found_msg ns u) = true.
Proof.
  unfold not_found_msg. split.
  - rewrite !append_assoc. apply contains_middle.
  - rewrite !append_assoc.
    rewrite <- (append_assoc "Module '" ns).
    rewrite <- (append_assoc _ "' not found in '").
    apply contains_middle.
Qed.

(** X14: with [test_connection] set, a namespace whose URL the store
    reports as absent makes the call raise [ModuleNotFoundError], naming
    the namespace and the URL, before anything is looked up or registered:
    also when the namespace is bound already, and whatever [reload] says.
    One [exists] call is all that happened. *)
Theorem add_remote_unreachable ns rest base reload hdrs extra w h :
  url_to_fs (sanitize_url (base +:+ "/" +:+ ns)) extra = Ret h ->
  fs_exists h (sanitize_url (base +:+ "/" +:+ ns)) = Ret false ->
  add_remote (ns :: rest) base reload hdrs extra true w =
    (Raise (mkExn ModuleNotFoundError
              (not_found_msg ns (sanitize_url (base +:+ "/" +:+ ns)))),
     logged [FsExists (sanitize_url (base +:+ "/" +:+ ns))] w) /\
  Str.contains ns (not_found_msg ns (sanitize_url (base +:+ "/" +:+ ns))) = true /\
  Str.contains (sanitize_url (base +:+ "/" +:+ ns))
    (not_found_msg ns (sanitize_url (base +:+ "/" +:+ ns))) = true.
Proof.
  intros Hfs Hexists. split; [|apply not_found_msg_carries].
  unfold add_remote. cbn [for_namespaces].
  erewrite bind_raise; [reflexivity|].
  erewrite bind_raise; [reflexivity|].
  unfold check_connection, lift. rewrite bind_run, Hfs.
  rewrite bind_run, fs_call_run, Hexists. reflexivity.
Qed.

(** X15: a call with distinct names none of which is bound, and without the
    connection test, registers every name: each gets a new importer made
    from the call's arguments, the finders enter [sys.meta_path] in front
    and in reverse order of the names (the last name is searched first),
    the finders that were there keep their order behind them, and the call
    returns the importer of the last name. *)
Theorem add_remote_registers_each names base reload hdrs extra w :
  names <> [] ->
  NoDup names ->
  all_unbound names w ->
  exists w',
    add_remote names base reload hdrs extra false w =
      (Ret (length (importers w) + length names - 1), w') /\
    meta_path w' =
      rev (map RemoteFinder (seq (length (importers w)) (length names))) ++ meta_path w /\
    importers w' = importers w ++ map (fun ns => __init__ ns base hdrs extra) names /\
    sys_modules w' = sys_modules w /\
    fs_log w' = fs_log w.
Proof.
  intros Hne Hdup Hall. eexists.
  split; [apply add_remote_registers_all; assumption|].
  apply registered_all.
Qed.

(** *** The registry invariant *)

Lemma only_registers_refl w : only_registers w w.
Proof.
  unfold only_registers. repeat split.
  - exists []. reflexivity.
  - exists []. rewrite app_nil_r. reflexivity.
  - exists []. rewrite app_nil_r. reflexivity.
Qed.

Lemma only_registers_trans w1 w2 w3 :
  only_registers w1 w2 -> only_registers w2 w3 -> only_registers w1 w3.
Proof.
  intros ([n1 Hm] & [m1 Hi] & Hs & Hmod & [c1 Hl])
         ([n2 Hm'] & [m2 Hi'] & Hs' & Hmod' & [c2 Hl']).
  unfold only_registers. repeat split; try congruence.
  - exists (n2 ++ n1). rewrite Hm', Hm, app_assoc. reflexivity.
  - exists (m1 ++ m2). rewrite Hi', Hi, app_assoc. reflexivity.
  - exists (c1 ++ c2). rewrite Hl', Hl, app_assoc. reflexivity.
Qed.

Lemma only_registers_logged calls w : only_registers w (logged calls w).
Proof.
  unfold only_registers. repeat split.
  - exists []. reflexivity.
  - exists []. cbn. rewrite app_nil_r. reflexivity.
  - exists calls. reflexivity.
Qed.

Lemma only_registers_registered base hdrs extra w ns :
  only_registers w (registered base hdrs extra w ns).
Proof.
  unfold only_registers, registered. cbn. repeat split.
  - exists [RemoteFinder (length (importers w))]. reflexivity.
  - eexists. reflexivity.
  - exists []. rewrite app_nil_r. reflexivity.
Qed.

Lemma bind_get {B} (k : World -> M B) w : bind get k w = k w w.
Proof. reflexivity. Qed.

Lemma check_connection_run ns base extra w :
  exists o calls, check_connection ns base extra w = (o, logged calls w).
Proof.
  unfold check_connection, lift. rewrite bind_run.
  destruct (url_to_fs _ extra) as [h|e].
  - rewrite bind_run, fs_call_run.
    destruct (fs_exists h _) as [[|]|e]; do 2 eexists; reflexivity.
  - exists (Raise e), []. unfold logged. rewrite app_nil_r. destruct w; reflexivity.
Qed.

(** Without reload the inner loop does not touch the world: it returns the
    first importer of that name, or runs out when no importer has it. *)
Lemma for_importers_scan ns base hdrs candidates w : forall importer,
  Forall (fun i => is_Some (importers w !! i)) candidates ->
  (exists i, for_importers ns base false hdrs candidates importer w = (Ret (Return i), w)) \/
  (Forall (fun i => exists imp, importers w !! i = Some imp /\ namespace imp <> ns)
          candidates /\
   exists importer',
     for_importers ns base false hdrs candidates importer w = (Ret (Continue importer'), w)).
Proof.
  induction candidates as [|c rest IH]; intros importer Hvalid; cbn [for_importers].
  - right. split; [constructor | eexists; reflexivity].
  - apply Forall_cons in Hvalid as [[imp Hc] Hrest].
    read_importer Hc.
    destruct (String.eqb_spec ns (namespace imp)) as [Heq|Hne].
    + left. eexists. reflexivity.
    + destruct (IH (Some c) Hrest) as [Hfound | [Hall Hout]].
      * left. exact Hfound.
      * right. split; [|exact Hout].
        constructor; [|exact Hall]. exists imp. split; [exact Hc | congruence].
Qed.

Lemma bound_names_registered base hdrs extra w ns :
  Forall (fun i => is_Some (importers w !! i)) (remote_importers w) ->
  bound_names (registered base hdrs extra w ns) = ns :: bound_names w.
Proof.
  intros Hvalid. unfold bound_names, registered, remote_importers in *.
  cbn [meta_path importers omap list_omap].
  rewrite list_lookup_middle by reflexivity. cbn [fmap option_fmap option_map namespace __init__].
  f_equal.
  induction Hvalid as [|i rest [imp Hi] _ IH]; [reflexivity|].
  cbn [omap list_omap]. rewrite (lookup_app_l_Some _ _ _ _ Hi), Hi.
  cbn [fmap option_fmap option_map]. f_equal. exact IH.
Qed.

Lemma registry_ok_registered base hdrs extra w ns :
  registry_ok w ->
  Forall (fun i => exists imp, importers w !! i = Some imp /\ namespace imp <> ns)
         (remote_importers w) ->
  registry_ok (registered base hdrs extra w ns).
Proof.
  intros [Hvalid Hdup] Hfresh. split.
  - unfold registered, remote_importers in *. cbn [meta_path importers omap list_omap].
    constructor.
    + rewrite list_lookup_middle by reflexivity. eauto.
    + eapply Forall_impl; [exact Hvalid|]. cbn beta.
      intros i [imp Hi]. exists imp. apply lookup_app_l_Some, Hi.
  - rewrite (bound_names_registered _ _ _ _ _ Hvalid). constructor; [|exact Hdup].
    unfold bound_names. intros Hin.
    apply list_elem_of_omap in Hin as (i & Hi & Hns).
    rewrite Forall_forall in Hfresh.
    destruct (Hfresh i Hi) as (imp & Himp & Hne).
    rewrite Himp in Hns. cbn in Hns. congruence.
Qed.

Lemma for_namespaces_keeps_registry base hdrs extra test_connection names :
  forall w importer,
    registry_ok w ->
    registry_ok (snd (for_namespaces names base false hdrs extra test_connection importer w)) /\
    only_registers w
      (snd (for_namespaces names base false hdrs extra test_connection importer w)).
Proof.
  induction names as [|ns rest IH]; intros w importer Hok; cbn [for_namespaces].
  - split; [exact Hok | apply only_registers_refl].
  - assert (Hcheck : exists o calls,
              (if test_connection then check_connection ns base extra else ret tt) w =
              (o, logged calls w)).
    { destruct test_connection; [apply check_connection_run|].
      exists (Ret tt), []. unfold ret, logged. rewrite app_nil_r. destruct w; reflexivity. }
    destruct Hcheck as (o & calls & Hcheck).
    assert (Hok1 : registry_ok (logged calls w)) by exact Hok.
    rewrite bind_run, Hcheck.
    destruct o as [[]|e]; [|split; [exact Hok1 | apply only_registers_logged]].
    rewrite bind_get.
    destruct (for_importers_scan ns base hdrs (remote_importers (logged calls w))
                (logged calls w) importer (proj1 Hok1)) as [[i Hscan] | [Hfresh [v Hscan]]].
    + rewrite (bind_ret _ _ _ _ _ Hscan). unfold ret. cbn [snd].
      split; [exact Hok1 | apply only_registers_logged].
    + rewrite (bind_ret _ _ _ _ _ Hscan).
      assert (Hstep :
        bind (alloc_importer (__init__ ns base hdrs extra))
          (fun new =>
             bind (modify (fun w0 => with_meta_path (RemoteFinder new :: meta_path w0) w0))
               (fun _ => for_namespaces rest base false hdrs extra test_connection (Some new)))
          (logged calls w) =
        for_namespaces rest base false hdrs extra test_connection
          (Some (length (importers (logged calls w))))
          (registered base hdrs extra (logged calls w) ns)) by reflexivity.
      rewrite Hstep.
      pose proof (registry_ok_registered base hdrs extra _ ns Hok1 Hfresh) as Hok2.
      destruct (IH _ (Some (length (importers (logged calls w)))) Hok2) as [Hok3 Hreg].
      split; [exact Hok3|].
      eapply only_registers_trans; [apply only_registers_logged|].
      eapply only_registers_trans; [apply only_registers_registered | exact Hreg].
Qed.

(** X16: without [reload], whatever the names, the connection test and the
    outcome (a returned importer or a raised error), [add_remote] keeps the
    registry in order (every [RemoteImporter] on [sys.meta_path] is a live
    object and no two have the same namespace) and does nothing but
    register: finders are only put in front of [sys.meta_path], importer
    objects are only added, existing ones are not written to, and
    [sys.modules] and the module objects are untouched. *)
Theorem add_remote_keeps_registry names base hdrs extra test_connection w :
  registry_ok w ->
  registry_ok (snd (add_remote names base false hdrs extra test_connection w)) /\
  only_registers w (snd (add_remote names base false hdrs extra test_connection w)).
Proof.
  intros Hok.
  destruct (for_namespaces_keeps_registry base hdrs extra test_connection names w None Hok)
    as [Hok' Hreg].
  unfold add_remote. rewrite bind_run.
  destruct (for_namespaces names base false hdrs extra test_connection None w)
    as [[[i|[i|]]|e] w']; cbn [snd] in *; split; assumption.
Qed.

End RegistryEdges.

(** ** Reloading, [add_header] and [package_hash] *)

Section ReloadAndHeaders.
Context `{RemoteFS} `{PyRuntime}.

Lemma startswith_refl s : Str.startswith s s = true.
Proof.
  induction s as [|c t IH]; [reflexivity|].
  cbn [Str.startswith]. rewrite Ascii.eqb_refl. exact IH.
Qed.

Lemma startswith_app_l a b s :
  Str.startswith (a +:+ b) s = true -> Str.startswith a s = true.
Proof.
  revert s. induction a as [|c a IH]; intros s; [reflexivity|].
  rewrite append_cons. destruct s as [|d s]; cbn [Str.startswith]; [discriminate|].
  intros Hs. apply andb_prop in Hs as [Hc Hrest].
  rewrite Hc. apply IH, Hrest.
Qed.

Lemma startswith_contains needle hay :
  Str.startswith needle hay = true -> Str.contains needle hay = true.
Proof. intros Hs. destruct hay; cbn [Str.contains]; rewrite Hs; reflexivity. Qed.

(** X17: every cached module under a namespace (the namespace itself, or a
    dotted name that begins with it) is among the modules a reload of that
    namespace reloads. *)
Theorem reload_targets_cover ns w name :
  name ∈ map fst (sys_modules w) ->
  under_namespace ns name = true ->
  name ∈ reload_targets ns w.
Proof.
  intros Hin Hunder. unfold reload_targets.
  apply list_elem_of_In, filter_In. split; [apply list_elem_of_In, Hin|].
  apply startswith_contains.
  unfold under_namespace in Hunder. apply orb_prop in Hunder as [Heq | Hdot].
  - apply String.eqb_eq in Heq. subst name. apply startswith_refl.
  - eapply startswith_app_l, Hdot.
Qed.


Lemma add_header_unset self imp key value w :
  importers w !! self = Some imp ->
  _RemoteImporter__headers imp = None ->
  exists msg, add_header self key value w = (Raise (mkExn AttributeError msg), w).
Proof.
  intros Himp Hnone. eexists. unfold add_header. read_importer Himp.
  rewrite Hnone. reflexivity.
Qed.

(** X19: on an importer that [add_remote] has just registered, [add_header]
    raises [AttributeError] and stores nothing: the attribute it reads is
    the private one, which only a reload request creates. *)
Theorem add_header_before_reload ns base reload hdrs extra key value w :
  Forall (fun i => exists imp, importers w !! i = Some imp /\ namespace imp <> ns)
         (remote_importers w) ->
  exists i w1 msg,
    add_remote [ns] base reload hdrs extra false w = (Ret i, w1) /\
    add_header i key value w1 = (Raise (mkExn AttributeError msg), w1).
Proof.
  intros Hfresh.
  pose proof (add_remote_registers_front ns base reload hdrs extra w Hfresh) as Hadd.
  destruct (add_header_unset (length (importers w)) (__init__ ns base hdrs extra)
              key value
              (mkWorld (RemoteFinder (length (importers w)) :: meta_path w) (sys_modules w)
                 (importers w ++ [__init__ ns base hdrs extra]) (modules w) (fs_log w)))
    as [msg Hraise].
  - cbn [importers]. apply list_lookup_middle. reflexivity.
  - reflexivity.
  - do 3 eexists. split; [exact Hadd | exact Hraise].
Qed.

(** X20: [package_hash] reads the two header keys [X-hash] and [x-hash]
    and no other: setting a header under any other key, whatever its
    capitals, does not change it. *)
Theorem package_hash_other_keys imp key value :
  key <> "X-hash" ->
  key <> "x-hash" ->
  package_hash (with_headers (<[key := value]> (headers imp)) imp) = package_hash imp.
Proof.
  intros H1 H2. unfold package_hash, with_headers. cbn [headers].
  rewrite !lookup_insert_ne by congruence. reflexivity.
Qed.

End ReloadAndHeaders.

(** ** The further statements at work on the demo store *)

Section MoreRuns.

#[local] Existing Instance Demo.store.
#[local] Existing Instance Demo.runtime.


Lemma create_module_rebinds_witness :
  exists w1,
    create_module 0 (mkSpec "pkg" 0) Demo.world_cached = (Ret 2, w1) /\
    modules Demo.world_cached !! 2 = None /\
    modules w1 = [module_type "pkg"; module_type "subpkgs"; created_module Demo.pkg "pkg"] /\
    modules w1 !! 2 = Some (created_module Demo.pkg "pkg") /\
    dict_get "pkg" (sys_modules w1) = Some 2 /\
    (forall k, k <> "pkg" ->
       dict_get k (sys_modules w1) = dict_get k (sys_modules Demo.world_cached)) /\
    map fst (sys_modules w1) = ["pkg"; "subpkgs"] /\
    (forall m d, modules Demo.world_cached !! m = Some d -> modules w1 !! m = Some d) /\
    meta_path w1 = meta_path Demo.world_cached /\
    importers w1 = importers Demo.world_cached /\
    fs_log w1 = fs_log Demo.world_cached.
Proof.
  refine (create_module_rebinds 0 Demo.pkg (mkSpec "pkg" 0) Demo.world_cached _).
  reflexivity.
Defined.

Lemma exec_module_unresolved_witness :
  exists msg, exec_module 0 7 Demo.world = (Raise (mkExn AttributeError msg), Demo.world).
Proof.
  refine (exec_module_unresolved 0 Demo.pkg 7 Demo.world _ _); reflexivity.
Defined.

Lemma add_remote_unreachable_witness :
  add_remote ["pkg"; "extra"] "http://nowhere/" true ∅ [] true Demo.world =
    (Raise (mkExn ModuleNotFoundError (not_found_msg "pkg" "http://nowhere/pkg")),
     logged [FsExists "http://nowhere/pkg"] Demo.world) /\
  Str.contains "pkg" (not_found_msg "pkg" "http://nowhere/pkg") = true /\
  Str.contains "http://nowhere/pkg" (not_found_msg "pkg" "http://nowhere/pkg") = true.
Proof.
  refine (add_remote_unreachable "pkg" ["extra"] "http://nowhere/" true ∅ []
            Demo.world tt _ _); reflexivity.
Defined.

Lemma all_unbound_demo : all_unbound ["alpha"; "beta"] Demo.world.
Proof.
  constructor; [|constructor].
  exists Demo.pkg. split; [reflexivity|].
  intros Hin. apply list_elem_of_In in Hin. cbn in Hin.
  destruct Hin as [[=]|[[=]|[]]].
Qed.

Lemma add_remote_registers_each_witness :
  exists w',
    add_remote ["alpha"; "beta"] "http://host/lib/" false ∅ [] false Demo.world =
      (Ret 2, w') /\
    meta_path w' = [RemoteFinder 2; RemoteFinder 1; RemoteFinder 0; OtherFinder "PathFinder"] /\
    importers w' =
      [Demo.pkg; __init__ "alpha" "http://host/lib/" ∅ [];
       __init__ "beta" "http://host/lib/" ∅ []] /\
    sys_modules w' = [] /\
    fs_log w' = [].
Proof.
  refine (add_remote_registers_each ["alpha"; "beta"] "http://host/lib/" false ∅ []
            Demo.world _ _ all_unbound_demo).
  - discriminate.
  - apply NoDup_ListNoDup. repeat constructor; cbn; intuition discriminate.
Defined.

Lemma registry_ok_demo : registry_ok Demo.world.
Proof.
  split.
  - constructor; [eexists; reflexivity | constructor].
  - apply NoDup_ListNoDup. repeat constructor. cbn. tauto.
Qed.

Lemma add_remote_keeps_registry_witness :
  registry_ok
    (snd (add_remote ["alpha"; "pkg"; "beta"] "http://host/lib/" false ∅ [] false Demo.world)) /\
  only_registers Demo.world
    (snd (add_remote ["alpha"; "pkg"; "beta"] "http://host/lib/" false ∅ [] false Demo.world)).
Proof.
  apply (add_remote_keeps_registry ["alpha"; "pkg"; "beta"] "http://host/lib/" ∅ [] false
           Demo.world registry_ok_demo).
Defined.

Lemma reload_targets_cover_witness : "pkg" ∈ reload_targets "pkg" Demo.world_cached.
Proof.
  apply (reload_targets_cover "pkg" Demo.world_cached "pkg"); [|reflexivity].
  apply list_elem_of_In. cbn. tauto.
Defined.


Lemma add_header_before_reload_witness :
  exists i w1 msg,
    add_remote ["extra"] "http://host/lib/" false ∅ [] false Demo.world = (Ret i, w1) /\
    add_header i "X-hash" "abc" w1 = (Raise (mkExn AttributeError msg), w1).
Proof.
  refine (add_header_before_reload "extra" "http://host/lib/" false ∅ [] "X-hash" "abc"
            Demo.world _).
  constructor; [|constructor].
  exists Demo.pkg. split; [reflexivity | discriminate].
Defined.

Lemma package_hash_other_keys_witness :
  package_hash (with_headers (<["X-Hash" := "abc"]> (headers Demo.pkg)) Demo.pkg) =
  package_hash Demo.pkg.
Proof.
  apply (package_hash_other_keys Demo.pkg "X-Hash" "abc"); discriminate.
Defined.

End MoreRuns.

Section FaultyRuns.

#[local] Existing Instance Faulty.store.
#[local] Existing Instance Faulty.runtime.

Lemma find_spec_listing_error_witness :
  find_spec 0 "pkg.sub" Demo.world =
  (Raise (Faulty.denied "http://host/lib/pkg"),
   logged [FsFind "http://host/lib/pkg"] Demo.world).
Proof.
  refine (find_spec_listing_error 0 Demo.pkg "pkg.sub" Demo.world tt
            (Faulty.denied "http://host/lib/pkg") _ _ _ _); reflexivity.
Defined.


End FaultyRuns.
